(** * LTBox device controller: a shallow embedding of [ltbox/device.py]
      and of the process runner of [ltbox/utils.py].

    The Python code talks to the outside world all the time (child
    processes, the serial-port enumeration, the clock, the console, the
    file system).  The embedding makes this explicit:

    - an [Env] answers every request to the outside world; the n-th request
      of a kind gets the n-th answer of that kind;
    - a [State] holds the trace of everything the program did so far, newest
      event first, and the one mutable attribute of [DeviceController],
      [edl_port];
    - a computation is a function [State -> res A * State]; the result is a
      value, a raised Python exception, or [Diverge] when the fuel of a
      [while] loop is used up.

    Text is modelled by [string], one [ascii] per code point, so the code
    points below 256; letter case is known below 128 only.  Console narration
    looked up in [self.lang] is recorded by its dictionary key, not by its
    text, and printing is taken to succeed; the text printed by
    [run_command] is recorded in full.

    A line that is formatted with an exception or with text that a child
    process wrote, [print(self.lang.get(key, f"..{x}..").format(x=x))], goes
    through [format], the model of [str.format]: the line is printed when
    the formatting succeeds, and the exception of [str.format] is raised
    when it does not.  Without a translation for the key the template is the
    default text, in which [x] stands already, so a brace in [x] is read as
    markup.  Where the line is formatted with a port name reported by the
    operating system or with a name of [ltbox.constants], the formatting is
    taken to succeed.  The [PATH] overlay that [run_command] builds for its
    children is left out. *)

From Stdlib Require Import String Ascii List ZArith Lia Bool Arith DecimalString.
From Stdlib Require Strings.Byte.
Import ListNotations.
Local Open Scope string_scope.
Local Open Scope list_scope.

(** ** Python strings *)

Module Py.

(** [str.isspace] on a code point below 256, which is also what [str.strip]
    removes and what [\s] matches: TAB..CR, FS..US, SPACE, NEL (133) and the
    no-break space (160). *)
Definition is_space (c : ascii) : bool :=
  let n := nat_of_ascii c in
  (((9 <=? n) && (n <=? 13)) || ((28 <=? n) && (n <=? 32)) ||
   (n =? 133) || (n =? 160))%nat.

(** [a-z] of a regular expression. *)
Definition is_lower (c : ascii) : bool :=
  let n := nat_of_ascii c in ((97 <=? n) && (n <=? 122))%nat.

Definition upper_char (c : ascii) : ascii :=
  if is_lower c then ascii_of_nat (nat_of_ascii c - 32) else c.

(** [s.upper()] *)
Fixpoint upper (s : string) : string :=
  match s with
  | EmptyString => EmptyString
  | String c t => String (upper_char c) (upper t)
  end.

(** [s.lstrip()] *)
Fixpoint lstrip (s : string) : string :=
  match s with
  | EmptyString => EmptyString
  | String c t => if is_space c then lstrip t else s
  end.

(** [s.rstrip()]: a character is dropped when it is white and everything
    after it has been dropped. *)
Fixpoint rstrip (s : string) : string :=
  match s with
  | EmptyString => EmptyString
  | String c t =>
      match rstrip t with
      | EmptyString => if is_space c then EmptyString else String c EmptyString
      | r => String c r
      end
  end.

(** [s.strip()] *)
Definition strip (s : string) : string := rstrip (lstrip s).

(** [needle in hay] *)
Fixpoint contains (needle hay : string) : bool :=
  String.prefix needle hay ||
  match hay with
  | EmptyString => false
  | String _ t => contains needle t
  end.

(** [sep.join(l)] *)
Definition join (sep : string) (l : list string) : string := String.concat sep l.

(** Truth value of a [str]. *)
Definition truthy (s : string) : bool := negb (s =? "").

(** Truth value of an [Optional[str]]. *)
Definition truthy_opt (o : option string) : bool :=
  match o with
  | None => false
  | Some s => truthy s
  end.

(** [x in l] for a list of strings. *)
Definition mem (x : string) (l : list string) : bool := existsb (String.eqb x) l.

(** [str(n)] for an [int]. *)
Definition str_of_Z (z : Z) : string := NilZero.string_of_int (Z.to_int z).

(** *** The regular expression [current-slot:\s*([a-z]+)] *)

Fixpoint skip_spaces (s : string) : string :=
  match s with
  | EmptyString => EmptyString
  | String c t => if is_space c then skip_spaces t else s
  end.

Fixpoint take_lower (s : string) : string :=
  match s with
  | EmptyString => EmptyString
  | String c t => if is_lower c then String c (take_lower t) else EmptyString
  end.

Fixpoint drop (n : nat) (s : string) : string :=
  match n, s with
  | O, _ => s
  | S _, EmptyString => EmptyString
  | S k, String _ t => drop k t
  end.

(** The pattern anchored at the head of [s]; the result is group 1.  White
    space and lower-case letters are disjoint, so the greedy [\s*] never has
    to give characters back. *)
Definition match_current_slot_here (s : string) : option string :=
  if String.prefix "current-slot:" s then
    let g := take_lower (skip_spaces (drop 13 s)) in
    if g =? "" then None else Some g
  else None.

(** [re.search(r"current-slot:\s*([a-z]+)", s)]: leftmost match, group 1. *)
Fixpoint search_current_slot (s : string) : option string :=
  match match_current_slot_here s with
  | Some g => Some g
  | None =>
      match s with
      | EmptyString => None
      | String _ t => search_current_slot t
      end
  end.

(** *** Exceptions *)

Inductive exn : Type :=
| FileNotFoundError (detail : string) (filename : option string)
| CalledProcessError (returncode : Z) (cmd : list string)
                     (stdout stderr : option string)
| TypeError (detail : string)
| EOFError
| PyError (cls detail : string)        (* any other subclass of Exception *)
| KeyboardInterrupt
| SystemExit (code : Z).

(** [isinstance(e, Exception)]: [KeyboardInterrupt] and [SystemExit] derive
    from [BaseException] only. *)
Definition is_Exception (e : exn) : bool :=
  match e with
  | KeyboardInterrupt | SystemExit _ => false
  | _ => true
  end.

Definition is_CalledProcessError (e : exn) : bool :=
  match e with CalledProcessError _ _ _ _ => true | _ => false end.

Definition is_FileNotFoundError (e : exn) : bool :=
  match e with FileNotFoundError _ _ => true | _ => false end.

Definition is_KeyboardInterrupt (e : exn) : bool :=
  match e with KeyboardInterrupt => true | _ => false end.

Definition is_EOFError (e : exn) : bool :=
  match e with EOFError => true | _ => false end.

(** *** [repr] and [str]

    [repr(s)] of a [str]: double quotes when [s] holds a single quote and no
    double quote, single quotes otherwise; the quote and the backslash are
    escaped, TAB, LF and CR are written [\t], [\n] and [\r], and any other
    code point that is not printable is written [\xhh]. *)
Definition squote : ascii := ascii_of_nat 39.
Definition dquote : ascii := ascii_of_nat 34.
Definition backslash : ascii := ascii_of_nat 92.

Fixpoint has_char (c : ascii) (s : string) : bool :=
  match s with
  | EmptyString => false
  | String d t => (d =? c)%char || has_char c t
  end.

(** [str.isprintable] on a code point below 256. *)
Definition is_printable (c : ascii) : bool :=
  let n := nat_of_ascii c in
  (((32 <=? n) && (n <=? 126)) || ((161 <=? n) && negb (n =? 173)))%nat.

Definition hex_digit (n : nat) : ascii :=
  ascii_of_nat (if (n <? 10)%nat then 48 + n else 87 + n).

Definition escaped (quote c : ascii) : string :=
  let n := nat_of_ascii c in
  if ((c =? quote) || (c =? backslash))%char then String backslash (String c "")
  else if (n =? 9)%nat then String backslash "t"
  else if (n =? 10)%nat then String backslash "n"
  else if (n =? 13)%nat then String backslash "r"
  else if is_printable c then String c ""
  else String backslash
         (String "x" (String (hex_digit (n / 16)) (String (hex_digit (n mod 16)) ""))).

Fixpoint escape_all (quote : ascii) (s : string) : string :=
  match s with
  | EmptyString => EmptyString
  | String c t => escaped quote c ++ escape_all quote t
  end.

Definition repr (s : string) : string :=
  let quote := if has_char squote s && negb (has_char dquote s) then dquote else squote in
  String quote (escape_all quote s ++ String quote "").

(** [str(l)] for a list of strings. *)
Definition str_of_list (l : list string) : string :=
  "[" ++ join ", " (map repr l) ++ "]".

(** [str(e)].  The [detail] of an exception is its text.  That of a
    [CalledProcessError] is made of the command and the return code; for a
    child ended by a signal it names the signal, [signals] being the
    [repr] of [signal.Signals(n)] where the platform has a signal [n]. *)
Definition exn_text (signals : Z -> option string) (e : exn) : string :=
  match e with
  | FileNotFoundError detail _ => detail
  | CalledProcessError rc cmd _ _ =>
      if (rc <? 0)%Z then
        match signals (- rc)%Z with
        | Some name => "Command '" ++ str_of_list cmd ++ "' died with " ++ name ++ "."
        | None =>
            "Command '" ++ str_of_list cmd ++ "' died with unknown signal "
            ++ str_of_Z (- rc) ++ "."
        end
      else
        "Command '" ++ str_of_list cmd ++ "' returned non-zero exit status "
        ++ str_of_Z rc ++ "."
  | TypeError detail => detail
  | EOFError => ""
  | PyError _ detail => detail
  | KeyboardInterrupt => ""
  | SystemExit code => str_of_Z code
  end.

(** An argument of [str.format]: a [str] or an exception. *)
Inductive value : Type :=
| Text (s : string)
| Error (e : exn).

(** [s.splitlines()[0]] for a [str] that is not empty: what stands before
    the first line boundary (LF, VT, FF, CR, FS, GS, RS or NEL). *)
Definition is_line_break (c : ascii) : bool :=
  let n := nat_of_ascii c in
  (((10 <=? n) && (n <=? 13)) || ((28 <=? n) && (n <=? 30)) || (n =? 133))%nat.

Fixpoint first_line (s : string) : string :=
  match s with
  | EmptyString => EmptyString
  | String c t => if is_line_break c then EmptyString else String c (first_line t)
  end.

(** *** Binding the arguments of a call

    [params] are the parameters of a [def] without defaults, [npos] the
    number of positional arguments of the call and [kws] the names of its
    keyword arguments. *)
Definition binds (params : list string) (npos : nat) (kws : list string) : bool :=
  (npos <=? List.length params)%nat &&
  forallb (fun k => mem k (skipn npos params)) kws &&
  forallb (fun p => mem p kws) (skipn npos params).

End Py.
Import Py.

(** ** The outside world and the state of a run *)

Module World.

Inductive stream : Type := Stdout | Stderr.

(** A serial port as [serial.tools.list_ports] reports it; the code guards
    [description] and [hwid] against being empty or [None]. *)
Record port : Type := {
  device : string;
  description : option string;
  hwid : option string
}.

(** What launching a child process leads to: it runs and exits with a
    return code after writing [out] and [err], or [subprocess.run] raises
    before or while the child runs.  [out] and [err] are the texts as
    [text=True] decodes them. *)
Inductive child : Type :=
| Exits (returncode : Z) (out err : string)
| Throws (e : exn).

(** A [pathlib.Path], by what the code reads of it: [str(p)],
    [str(p.parent)] and [p.name]. *)
Record Path : Type := {
  str : string;
  parent : string;
  name : string
}.

Record Env : Type := {
  child_at : nat -> list string -> child;     (* n-th [subprocess.run] *)
  comports_at : nat -> exn + list port;       (* n-th [comports()] *)
  sleep_at : nat -> bool;                     (* n-th [time.sleep] interrupted by Ctrl+C *)
  exists_at : nat -> string -> bool;          (* n-th [Path.exists()] *)
  mkdir_at : nat -> string -> option exn;     (* n-th [Path.mkdir(exist_ok=True)] *)
  input_at : nat -> option string;            (* n-th [input()], [None] at end of file *)
  on_windows : bool;                          (* [platform.system() == "Windows"] *)
  os_sep : string;                            (* [os.sep] *)
  lang : string -> option string;             (* the translations in [self.lang] *)
  format_field : string -> list (string * value) -> (string * string) + string;
      (* [str.format] from a replacement field on that is more than a name:
         the text, or the class and the text of the exception *)
  signal_repr : Z -> option string            (* [repr(signal.Signals(n))] *)
}.

Inductive event : Type :=
| Say (s : stream) (key : string)            (* [print(self.lang.get(key, ...), file=s)] *)
| Printed (s : stream) (text : string)       (* [print(text, file=s)] *)
| Spawn (argv : list string) (check capture : bool)
| ChildWrite (s : stream) (text : string)    (* an uncaptured child writes to the inherited stream *)
| Comports
| Sleep (secs : nat)
| Exists (path : string)
| Mkdir (path : string)
| Input
| System (cmd : string).

(** The trace is kept newest event first. *)
Record State : Type := {
  trace : list event;
  edl_port : option string
}.

Definition record (e : event) (st : State) : State :=
  {| trace := e :: trace st; edl_port := edl_port st |}.

(** How many requests of each kind the trace holds. *)
Definition is_spawn (e : event) : bool :=
  match e with Spawn _ _ _ => true | _ => false end.
Definition is_comports (e : event) : bool :=
  match e with Comports => true | _ => false end.
Definition is_sleep (e : event) : bool :=
  match e with Sleep _ => true | _ => false end.
Definition is_exists (e : event) : bool :=
  match e with Exists _ => true | _ => false end.
Definition is_mkdir (e : event) : bool :=
  match e with Mkdir _ => true | _ => false end.
Definition is_input (e : event) : bool :=
  match e with Input => true | _ => false end.

Definition count (p : event -> bool) (l : list event) : nat :=
  List.length (filter p l).

Definition n_spawn (st : State) : nat := count is_spawn (trace st).
Definition n_comports (st : State) : nat := count is_comports (trace st).
Definition n_sleep (st : State) : nat := count is_sleep (trace st).
Definition n_exists (st : State) : nat := count is_exists (trace st).
Definition n_mkdir (st : State) : nat := count is_mkdir (trace st).
Definition n_input (st : State) : nat := count is_input (trace st).

(** *** Computations *)

Inductive res (A : Type) : Type :=
| Ok (a : A)
| Raise (e : exn)
| Diverge.
Arguments Ok {A} a.
Arguments Raise {A} e.
Arguments Diverge {A}.

Definition M (A : Type) : Type := State -> res A * State.

Definition ret {A} (a : A) : M A := fun st => (Ok a, st).

Definition bind {A B} (m : M A) (k : A -> M B) : M B :=
  fun st =>
    match m st with
    | (Ok a, st1) => k a st1
    | (Raise e, st1) => (Raise e, st1)
    | (Diverge, st1) => (Diverge, st1)
    end.

Definition raise {A} (e : exn) : M A := fun st => (Raise e, st).

Definition diverge {A} : M A := fun st => (Diverge, st).

(** [try: body / except <catches> as e: handler e]; an exception raised by
    the handler is not caught again. *)
Definition try_ {A} (body : M A) (catches : exn -> bool) (handler : exn -> M A) : M A :=
  fun st =>
    match body st with
    | (Raise e, st1) => if catches e then handler e st1 else (Raise e, st1)
    | r => r
    end.

Definition emit (e : event) : M unit := fun st => (Ok tt, record e st).

Definition say (key : string) : M unit := emit (Say Stdout key).
Definition say_err (key : string) : M unit := emit (Say Stderr key).
Definition print (s : stream) (text : string) : M unit := emit (Printed s text).

Definition when (b : bool) (m : M unit) : M unit := if b then m else ret tt.

(** [while not (x := cond()): body], then the value of [x]. *)
Fixpoint while_not {A} (truth : A -> bool) (cond : M A) (body : M unit)
    (fuel : nat) : M A :=
  match fuel with
  | O => diverge
  | S f =>
      bind cond (fun x =>
        if truth x then ret x
        else bind body (fun _ => while_not truth cond body f))
  end.

Declare Scope py_scope.
Delimit Scope py_scope with py.
Notation "x <- c ;; k" := (bind c (fun x => k))
  (at level 61, c at next level, right associativity) : py_scope.
Notation "c ;; k" := (bind c (fun _ => k))
  (at level 61, right associativity) : py_scope.

(** A failed binding of the arguments of a call [fname(a1, .., an, k1=..,
    ..)] to [params]; Python raises it before the body runs. *)
Definition bind_error (fname : string) (params : list string) (npos : nat)
    (kws : list string) : option exn :=
  match find (fun k => negb (mem k params)) kws with
  | Some k =>
      Some (TypeError (fname ++ "() got an unexpected keyword argument '" ++ k ++ "'"))
  | None =>
      if binds params npos kws then None
      else Some (TypeError (fname ++ "() arguments do not match its parameters"))
  end.

Definition call {A} (fname : string) (params : list string) (npos : nat)
    (kws : list string) (body : M A) : M A :=
  match bind_error fname params npos kws with
  | Some e => raise e
  | None => body
  end.

(** [o.strip()] and [o + ..] for an attribute that may be [None]. *)
Definition strip_of (o : option string) : M string :=
  match o with
  | Some s => ret (strip s)
  | None => raise (PyError "AttributeError" "'NoneType' object has no attribute 'strip'")
  end.

Definition text_of (o : option string) : M string :=
  match o with
  | Some s => ret s
  | None => raise (TypeError "unsupported operand type(s) for +: 'NoneType' and 'str'")
  end.

Section Requests.
Variable env : Env.

Definition path_exists (p : string) : M bool :=
  fun st => (Ok (exists_at env (n_exists st) p), record (Exists p) st).

Definition mkdir (p : string) : M unit :=
  fun st =>
    match mkdir_at env (n_mkdir st) p with
    | Some e => (Raise e, record (Mkdir p) st)
    | None => (Ok tt, record (Mkdir p) st)
    end.

Definition sleep (secs : nat) : M unit :=
  fun st =>
    if sleep_at env (n_sleep st)
    then (Raise KeyboardInterrupt, record (Sleep secs) st)
    else (Ok tt, record (Sleep secs) st).

Definition input : M string :=
  fun st =>
    match input_at env (n_input st) with
    | Some line => (Ok line, record Input st)
    | None => (Raise EOFError, record Input st)
    end.

Definition comports : M (list port) :=
  fun st =>
    match comports_at env (n_comports st) with
    | inr ports => (Ok ports, record Comports st)
    | inl e => (Raise e, record Comports st)
    end.

(** *** [str.format]

    [template.format(name=value, ..)] reads the template from left to right
    and stops at the first error.  Text is copied; a doubled brace stands
    for one brace; a closing brace on its own, an opening brace at the very
    end and a name that is not closed are a [ValueError]; [{name}], where
    [name] is not empty, is not a number and holds none of [{ ! : . [],
    stands for the argument of that name, and is a [KeyError] when there is
    none.  From any other replacement field on (no name, a number, a
    conversion, a format specification, an attribute or an index), what
    [str.format] makes of the rest is asked of the environment. *)
Definition str_of (e : exn) : string := exn_text (signal_repr env) e.

Definition value_text (v : value) : string :=
  match v with
  | Text s => s
  | Error e => str_of e
  end.

Fixpoint lookup (name : string) (kwargs : list (string * value)) : option value :=
  match kwargs with
  | [] => None
  | (k, v) :: rest => if (k =? name)%string then Some v else lookup name rest
  end.

Definition is_digit (c : ascii) : bool :=
  let n := nat_of_ascii c in ((48 <=? n) && (n <=? 57))%nat.

Fixpoint all_digits (s : string) : bool :=
  match s with
  | EmptyString => true
  | String c t => is_digit c && all_digits t
  end.

(** The characters that end the name of a field or make it compound. *)
Definition is_markup (c : ascii) : bool :=
  ((c =? "{") || (c =? "!") || (c =? ":") || (c =? ".") || (c =? "["))%char.

(** Where the reading stands: in plain text, behind an opening brace, in
    the name of a field, or behind a closing brace.  [from] is the template
    from the opening brace of the field on. *)
Inductive reading : Type :=
| Plain
| Opened (from : string)
| Named (from name : string)
| Closed.

Definition beyond (from : string) (kwargs : list (string * value)) : exn + string :=
  match format_field env from kwargs with
  | inl (cls, detail) => inl (PyError cls detail)
  | inr text => inr text
  end.

Definition then_ (head : string) (rest : exn + string) : exn + string :=
  match rest with
  | inl e => inl e
  | inr text => inr (head ++ text)%string
  end.

Fixpoint format_from (r : reading) (kwargs : list (string * value)) (s : string)
    : exn + string :=
  match s with
  | EmptyString =>
      match r with
      | Plain => inr ""
      | Opened _ => inl (PyError "ValueError" "Single '{' encountered in format string")
      | Named _ _ => inl (PyError "ValueError" "expected '}' before end of string")
      | Closed => inl (PyError "ValueError" "Single '}' encountered in format string")
      end
  | String c t =>
      match r with
      | Plain =>
          if (c =? "{")%char then format_from (Opened s) kwargs t
          else if (c =? "}")%char then format_from Closed kwargs t
          else then_ (String c "") (format_from Plain kwargs t)
      | Opened from =>
          if (c =? "{")%char then then_ "{" (format_from Plain kwargs t)
          else if (c =? "}")%char || is_markup c then beyond from kwargs
          else format_from (Named from (String c "")) kwargs t
      | Named from name =>
          if (c =? "}")%char then
            if all_digits name then beyond from kwargs
            else
              match lookup name kwargs with
              | Some v => then_ (value_text v) (format_from Plain kwargs t)
              | None => inl (PyError "KeyError" (repr name))
              end
          else if is_markup c then beyond from kwargs
          else format_from (Named from (name ++ String c "")%string) kwargs t
      | Closed =>
          if (c =? "}")%char then then_ "}" (format_from Plain kwargs t)
          else inl (PyError "ValueError" "Single '}' encountered in format string")
      end
  end.

Definition format (template : string) (kwargs : list (string * value))
    : exn + string :=
  format_from Plain kwargs template.

(** [self.lang.get(key, default)] *)
Definition lang_get (key default : string) : string :=
  match lang env key with
  | Some text => text
  | None => default
  end.

(** [self.lang.get(key, default).format(name=value, ..)] *)
Definition line (key default : string) (kwargs : list (string * value))
    : exn + string :=
  format (lang_get key default) kwargs.

(** [print(self.lang.get(key, default).format(name=value, ..), file=s)] *)
Definition say_format (s : stream) (key default : string)
    (kwargs : list (string * value)) : M unit :=
  match line key default kwargs with
  | inr _ => emit (Say s key)
  | inl e => raise e
  end.

(** The line of an [except] clause:
    [self.lang.get(key, f"{prefix}{e}").format(e=e)]. *)
Definition error_line (key prefix : string) (e : exn) : exn + string :=
  line key (prefix ++ str_of e)%string [("e", Error e)].

(** [print(self.lang.get(key, f"{prefix}{e}").format(e=e), file=sys.stderr)] *)
Definition say_error (key prefix : string) (e : exn) : M unit :=
  say_format Stderr key (prefix ++ str_of e)%string [("e", Error e)].

End Requests.

End World.
Import World.
Local Open Scope py_scope.

(** ** [ltbox/utils.py] *)

Module Utils.

(** [subprocess.CompletedProcess]; [stdout] and [stderr] are [None] when the
    stream was not captured. *)
Record CompletedProcess : Type := {
  args : list string;
  returncode : Z;
  stdout : option string;
  stderr : option string
}.

Definition str_of_opt (o : option string) : string :=
  match o with Some s => s | None => "None" end.

Section Runner.
Variable env : Env.

(** [subprocess.run(command, check=check, capture_output=capture_output,
    text=True, ...)] of the Python library.  Without [capture_output] the
    child inherits the console: what it writes goes there as it is, and the
    [stdout] and [stderr] of the result are [None].  With [check], a
    non-zero return code raises [CalledProcessError]. *)
Definition subprocess_run (command : list string) (check capture_output : bool)
    : M CompletedProcess :=
  fun st =>
    let st1 := record (Spawn command check capture_output) st in
    match child_at env (n_spawn st) command with
    | Throws e => (Raise e, st1)
    | Exits rc out err =>
        let st2 :=
          if capture_output then st1
          else record (ChildWrite Stderr err) (record (ChildWrite Stdout out) st1) in
        let so := if capture_output then Some out else None in
        let se := if capture_output then Some err else None in
        if check && negb (rc =? 0)%Z
        then (Raise (CalledProcessError rc command so se), st2)
        else (Ok {| args := command; returncode := rc; stdout := so; stderr := se |}, st2)
    end.

(** [if text: print(prefix + text.strip(), file=s)] *)
Definition echo_stripped (s : stream) (prefix : string) (text : option string) : M unit :=
  match text with
  | Some t => when (truthy t) (print s (prefix ++ strip t))
  | None => ret tt
  end.

(** [run_command(command, check=check, capture=capture)]; [shell] and [env]
    keep their defaults at every call of [device.py]. *)
Definition run_command (command : list string) (check capture : bool)
    : M CompletedProcess :=
  try_
    (process <- subprocess_run command check capture ;;
     when (negb capture)
       (echo_stripped Stdout "" (stdout process) ;;
        echo_stripped Stderr "" (stderr process)) ;;
     ret process)
    (fun e => is_FileNotFoundError e || is_CalledProcessError e)
    (fun e =>
       match e with
       | FileNotFoundError _ filename =>
           print Stderr ("Error: Command not found - " ++ str_of_opt filename) ;;
           raise e
       | CalledProcessError rc _ out err =>
           print Stderr ("Error executing command: " ++ join " " command) ;;
           print Stderr ("Return code: " ++ str_of_Z rc) ;;
           echo_stripped Stderr ("Stdout:" ++ String "010" "") out ;;
           echo_stripped Stderr ("Stderr:" ++ String "010" "") err ;;
           raise e
       | _ => raise e
       end).

(** The [for] loop of [wait_for_files] that collects the missing files. *)
Fixpoint missing_files (directory : Path) (files : list string) : M (list string) :=
  match files with
  | [] => ret []
  | f :: rest =>
      found <- path_exists env (str directory ++ os_sep env ++ f) ;;
      missing <- missing_files directory rest ;;
      ret (if found then missing else f :: missing)
  end.

Fixpoint print_each (prefix : string) (l : list string) : M unit :=
  match l with
  | [] => ret tt
  | x :: rest => print Stdout (prefix ++ x) ;; print_each prefix rest
  end.

(** The parameters of [def wait_for_files(directory, required_files,
    prompt_message)]. *)
Definition wait_for_files_params : list string :=
  ["directory"; "required_files"; "prompt_message"].

(** The rounds of [while True] in [wait_for_files], bounded by [fuel]. *)
Fixpoint wait_for_files_loop (directory : Path) (required_files : list string)
    (prompt_message : string) (fuel : nat) : M bool :=
  match fuel with
  | O => diverge
  | S f =>
      missing <- missing_files directory required_files ;;
      match missing with
      | [] => ret true
      | _ =>
          emit (System (if on_windows env then "cls" else "clear")) ;;
          print Stdout "--- WAITING FOR FILES ---" ;;
          print Stdout prompt_message ;;
          print Stdout (String "010" "Please place the following file(s) in the '"
                        ++ name directory ++ "' folder:") ;;
          print_each " - " missing ;;
          print Stdout (String "010" "Press Enter when ready...") ;;
          try_ (input env ;; ret tt) is_EOFError (fun _ => raise (SystemExit 1)) ;;
          wait_for_files_loop directory required_files prompt_message f
      end
  end.

(** The body of [wait_for_files(directory, required_files, prompt_message)]. *)
Definition wait_for_files (directory : Path) (required_files : list string)
    (prompt_message : string) (fuel : nat) : M bool :=
  mkdir env (str directory) ;;
  wait_for_files_loop directory required_files prompt_message fuel.

End Runner.

End Utils.

(** ** [ltbox/device.py]: [DeviceController] *)

Module Device.
Import Utils.

(** The names [device.py] takes from [ltbox.constants]; that module gives
    them fixed values, which no property below depends on. *)
Record Constants : Type := {
  ADB_EXE : Path;
  FASTBOOT_EXE : Path;
  QSAHARASERVER_EXE : Path;
  FH_LOADER_EXE : Path;
  IMAGE_DIR : Path;
  EDL_LOADER_FILENAME : string;
  loader_prompt : string          (* the text of [device_loader_prompt] *)
}.

(** [f"\\\\.\\{port}"]: two backslashes, a dot, a backslash, the port. *)
Definition raw_device_path (port : string) : string := "\\.\" ++ port.

(** [is_qualcomm_port] of [check_edl_device], as a truth value. *)
Definition is_qualcomm_port (p : port) : bool :=
  match description p with
  | Some d => truthy d && contains "Qualcomm" d && contains "9008" d
  | None => false
  end
  ||
  match hwid p with
  | Some h => truthy h && contains "VID:PID=05C6:9008" (upper h)
  | None => false
  end.

Section Controller.
Variable env : Env.
Variable K : Constants.
Variable skip_adb : bool.        (* [self.skip_adb] *)

Definition set_edl_port (p : option string) : M unit :=
  fun st => (Ok tt, {| trace := trace st; edl_port := p |}).

Definition wait_for_adb : M unit :=
  if skip_adb then say "device_skip_adb"
  else
    say "device_wait_adb_title" ;;
    say "device_enable_usb_debug" ;;
    say "device_usb_prompt_appear" ;;
    say "device_check_always_allow" ;;
    try_
      (run_command env [str (ADB_EXE K); "wait-for-device"] true false ;;
       say "device_adb_connected")
      is_Exception
      (fun e =>
         say_error env "device_err_wait_adb" "[!] Error waiting for ADB device: " e ;;
         raise e).

Definition get_active_slot_suffix : M (option string) :=
  wait_for_adb ;;
  if skip_adb then say "device_skip_slot" ;; ret None
  else
    say "device_get_slot_adb" ;;
    try_
      (result <- run_command env
                   [str (ADB_EXE K); "shell"; "getprop"; "ro.boot.slot_suffix"]
                   true true ;;
       suffix <- strip_of (stdout result) ;;
       if negb (mem suffix ["_a"; "_b"])
       then
         say_format env Stdout "device_warn_slot_invalid"
           ("[!] Warning: Could not get valid slot suffix (got '" ++ suffix
            ++ "'). Assuming non-A/B device.")
           [("suffix", Text suffix)] ;;
         ret None
       else
         say_format env Stdout "device_found_slot"
           ("[+] Found active slot suffix: " ++ suffix) [("suffix", Text suffix)] ;;
         ret (Some suffix))
      is_Exception
      (fun e =>
         say_error env "device_err_get_slot" "[!] Error getting active slot suffix: " e ;;
         say "device_ensure_connect" ;;
         ret None).

Definition get_active_slot_suffix_from_fastboot : M (option string) :=
  say "device_get_slot_fastboot" ;;
  try_
    (result <- run_command env [str (FASTBOOT_EXE K); "getvar"; "current-slot"]
                 false true ;;
     err <- strip_of (stderr result) ;;
     out <- strip_of (stdout result) ;;
     let output := (err ++ String "010" "" ++ out)%string in
     let snippet := if truthy output then first_line output else "None" in
     let warn :=
       say_format env Stdout "device_warn_slot_fastboot"
         ("[!] Warning: Could not get valid slot suffix from Fastboot. (Output snippet: "
          ++ snippet ++ ")")
         [("snippet", Text snippet)] ;;
       ret None in
     match search_current_slot output with
     | Some g =>
         let slot := strip g in
         if mem slot ["a"; "b"]
         then
           let suffix := ("_" ++ slot)%string in
           say_format env Stdout "device_found_slot_fastboot"
             ("[+] Found active slot suffix (Fastboot): " ++ suffix)
             [("suffix", Text suffix)] ;;
           ret (Some suffix)
         else warn
     | None => warn
     end)
    is_Exception
    (fun e =>
       say_error env "device_err_get_slot_fastboot"
         "[!] Error getting active slot suffix via Fastboot: " e ;;
       ret None).

Definition reboot_to_edl : M unit :=
  wait_for_adb ;;
  if skip_adb then say "device_manual_edl_req"
  else
    say "device_reboot_edl_adb" ;;
    try_
      (run_command env [str (ADB_EXE K); "reboot"; "edl"] true false ;;
       say "device_reboot_edl_sent")
      is_Exception
      (fun e =>
         say_error env "device_err_reboot" "[!] Failed to send reboot command: " e ;;
         say "device_manual_edl_fail").

Definition reboot_to_bootloader : M unit :=
  wait_for_adb ;;
  if skip_adb then say "device_skip_adb"
  else
    say "device_reboot_fastboot_adb" ;;
    try_
      (run_command env [str (ADB_EXE K); "reboot"; "bootloader"] true false ;;
       say "device_reboot_fastboot_sent")
      is_Exception
      (fun e =>
         say_error env "device_err_reboot" "[!] Failed to send reboot command: " e ;;
         raise e).

Definition check_fastboot_device (silent : bool) : M bool :=
  when (negb silent) (say "device_check_fastboot") ;;
  try_
    (result <- run_command env [str (FASTBOOT_EXE K); "devices"] false true ;;
     output <- strip_of (stdout result) ;;
     if truthy output
     then
       when (negb silent)
         (say_format env Stdout "device_found_fastboot"
            ("[+] Fastboot device found:" ++ String "010" "" ++ output)
            [("output", Text output)]) ;;
       ret true
     else
       when (negb silent)
         (say "device_no_fastboot" ;; say "device_connect_fastboot") ;;
       ret false)
    is_Exception
    (fun e =>
       when (negb silent)
         (say_error env "device_err_check_fastboot"
            "[!] Error checking for fastboot device: " e) ;;
       ret false).

(** [try: time.sleep(2) / except KeyboardInterrupt: print(..); raise] after
    the narration of a waiting round. *)
Definition wait_round (loop_key cancel_key : string) : M unit :=
  say loop_key ;;
  try_ (sleep env 2) is_KeyboardInterrupt (fun e => say cancel_key ;; raise e).

Definition wait_for_fastboot (fuel : nat) : M bool :=
  say "device_wait_fastboot_title" ;;
  found <- check_fastboot_device true ;;
  if found then say "device_fastboot_connected" ;; ret true
  else
    while_not (fun b : bool => b) (check_fastboot_device true)
      (wait_round "device_wait_fastboot_loop" "device_wait_fastboot_cancel") fuel ;;
    say "device_fastboot_connected" ;;
    ret true.

Definition fastboot_reboot_system : M unit :=
  say "device_reboot_sys_fastboot" ;;
  try_
    (run_command env [str (FASTBOOT_EXE K); "reboot"] true false ;;
     say "device_reboot_sent")
    is_Exception
    (fun e => say_error env "device_err_reboot" "[!] Failed to send reboot command: " e).

(** [get_fastboot_vars] up to and including [self.wait_for_fastboot()]. *)
Definition enter_fastboot (fuel : nat) : M unit :=
  say "device_rollback_header" ;;
  (if negb skip_adb then
     say "device_rebooting_fastboot" ;;
     reboot_to_bootloader ;;
     say "device_wait_10s_fastboot" ;;
     sleep env 10
   else
     say "device_skip_adb_on" ;;
     say "device_manual_reboot_fastboot" ;;
     say "device_press_enter_fastboot" ;;
     try_ (input env ;; ret tt) is_EOFError (fun _ => ret tt)) ;;
  wait_for_fastboot fuel ;;
  ret tt.

(** The rest of [get_fastboot_vars]: the retrieval and its [except]. *)
Definition read_fastboot_vars : M string :=
  say "device_read_rollback" ;;
  try_
    (result <- run_command env [str (FASTBOOT_EXE K); "getvar"; "all"] false true ;;
     out <- text_of (stdout result) ;;
     err <- text_of (stderr result) ;;
     let output := (out ++ String "010" "" ++ err)%string in
     (if negb skip_adb then
        say "device_reboot_back_sys" ;; fastboot_reboot_system
      else
        say "device_skip_adb_leave_fastboot" ;; say "device_manual_next_steps") ;;
     ret output)
    is_Exception
    (fun e =>
       say_error env "device_err_fastboot_vars"
         "[!] Failed to get fastboot variables: " e ;;
       when (negb skip_adb)
         (say "device_attempt_reboot_sys" ;;
          try_ fastboot_reboot_system is_Exception (fun _ => ret tt)) ;;
       raise e).

Definition get_fastboot_vars (fuel : nat) : M string :=
  enter_fastboot fuel ;;
  read_fastboot_vars.

(** The [for port in ports] loop of [check_edl_device] and what follows it. *)
Fixpoint scan_ports (silent : bool) (ports : list port) : M (option string) :=
  match ports with
  | [] =>
      when (negb silent) (say "device_no_edl" ;; say "device_connect_edl") ;;
      ret None
  | p :: rest =>
      if is_qualcomm_port p
      then when (negb silent) (say "device_found_edl") ;; ret (Some (device p))
      else scan_ports silent rest
  end.

Definition check_edl_device (silent : bool) : M (option string) :=
  when (negb silent) (say "device_check_edl") ;;
  try_
    (ports <- comports env ;; scan_ports silent ports)
    is_Exception
    (fun e =>
       when (negb silent)
         (say_error env "device_err_check_edl" "[!] Error checking for EDL device: " e) ;;
       ret None).

(** The value is the detector's own result, which is truthy when
    [wait_for_edl] returns it. *)
Definition wait_for_edl (fuel : nat) : M (option string) :=
  say "device_wait_edl_title" ;;
  port_name <- check_edl_device false ;;
  if truthy_opt port_name then ret port_name
  else
    port_name <- while_not truthy_opt (check_edl_device true)
                   (wait_round "device_wait_edl_loop" "device_wait_edl_cancel") fuel ;;
    say "device_edl_connected" ;;
    ret port_name.

(** The first statement of [setup_edl_connection]: reboot to EDL unless a
    device is there already. *)
Definition edl_reboot_or_skip : M unit :=
  found <- check_edl_device true ;;
  if truthy_opt found then say "device_already_edl"
  else
    when (negb skip_adb) wait_for_adb ;;
    say "device_edl_setup_title" ;;
    reboot_to_edl ;;
    when (negb skip_adb) (say "device_wait_10s_edl" ;; sleep env 10).

Definition setup_edl_connection (fuel : nat) : M (option string) :=
  edl_reboot_or_skip ;;
  say "device_wait_loader_title" ;;
  mkdir env (str (IMAGE_DIR K)) ;;
  call "wait_for_files" wait_for_files_params 3 ["lang"]
    (wait_for_files env (IMAGE_DIR K) [EDL_LOADER_FILENAME K] (loader_prompt K) fuel) ;;
  say "device_loader_found" ;;
  port <- wait_for_edl fuel ;;
  set_edl_port port ;;
  say "device_edl_setup_done" ;;
  ret port.

Definition cmd_sahara (loader_path : Path) (port : string) : list string :=
  [str (QSAHARASERVER_EXE K);
   "-p"; raw_device_path port;
   "-s"; ("13:" ++ str loader_path)%string].

Definition load_firehose_programmer (loader_path : Path) (port : string) : M unit :=
  present <- path_exists env (str (QSAHARASERVER_EXE K)) ;;
  if negb present
  then raise (FileNotFoundError "device_err_qsahara_missing" None)
  else
    say "device_upload_programmer" ;;
    try_
      (run_command env (cmd_sahara loader_path port) true false ;; ret tt)
      is_CalledProcessError
      (fun e =>
         say_err "device_fatal_programmer" ;;
         say_err "device_fatal_causes" ;;
         say_err "device_cause_1" ;;
         say_err "device_cause_2" ;;
         say_err "device_cause_3" ;;
         raise e).

Definition cmd_fh (loader_path : Path) (memory_type : string)
    (raw_xmls patch_xmls : list Path) (port : string) : list string :=
  [str (FH_LOADER_EXE K);
   ("--port=" ++ raw_device_path port)%string;
   ("--search_path=" ++ parent loader_path)%string;
   ("--sendxml=" ++ join "," (map name raw_xmls))%string;
   ("--sendxml=" ++ join "," (map name patch_xmls))%string;
   "--setactivepartition=1";
   ("--memoryname=" ++ memory_type)%string;
   "--showpercentagecomplete";
   "--zlpawarehost=1";
   "--noprompt"].

(** [not QSAHARASERVER_EXE.exists() or not FH_LOADER_EXE.exists()]; the
    second file is looked for only when the first is there.  This is the
    guard that opens [edl_rawprogram], with the narration of step 1. *)
Definition require_flash_tools : M unit :=
  sahara <- path_exists env (str (QSAHARASERVER_EXE K)) ;;
  missing <- (if negb sahara then ret true
              else fh <- path_exists env (str (FH_LOADER_EXE K)) ;; ret (negb fh)) ;;
  if missing : bool
  then
    say "device_err_tools_missing" ;;
    raise (FileNotFoundError "Missing fh_loader/Qsaharaserver executables" None)
  else say "device_step1_load".

Definition edl_rawprogram (loader_path : Path) (memory_type : string)
    (raw_xmls patch_xmls : list Path) (port : string) : M unit :=
  require_flash_tools ;;
  load_firehose_programmer loader_path port ;;
  say "device_step2_flash" ;;
  run_command env (cmd_fh loader_path memory_type raw_xmls patch_xmls port) true false ;;
  ret tt.

Definition get_device_model : M (option string) :=
  wait_for_adb ;;
  if skip_adb then say "device_skip_model_check" ;; ret None
  else
    say "device_get_model_adb" ;;
    try_
      (result <- run_command env
                   [str (ADB_EXE K); "shell"; "getprop"; "ro.product.model"]
                   true true ;;
       model <- strip_of (stdout result) ;;
       if negb (truthy model)
       then say "device_err_model_auth" ;; ret None
       else
         say_format env Stdout "device_found_model"
           ("[+] Found device model: " ++ model) [("model", Text model)] ;;
         ret (Some model))
      is_Exception
      (fun e =>
         say_error env "device_err_get_model" "[!] Error getting device model: " e ;;
         say "device_ensure_connect" ;;
         ret None).



End Controller.

End Device.

(** ** [ltbox/utils.py]: the dependency check *)

Module Dependencies.
Import Utils.

(** The names [check_dependencies] takes from [ltbox.constants]; the two
    keys are the entries of [KEY_MAP] it looks up. *)
Record Constants : Type := {
  PYTHON_EXE : Path;
  ADB_EXE : Path;
  FASTBOOT_EXE : Path;
  KEY_RSA4096 : Path;     (* [KEY_MAP["2597c218aae470a130f61162feaae70afd97f011"]] *)
  KEY_RSA2048 : Path;     (* [KEY_MAP["cdbb77177f731920bbe0a0f94f84d9038ae0617d"]] *)
  AVBTOOL_PY : Path;
  EDL_NG_EXE : Path;
  LIBUSB_DLL : Path;
  DOWNLOAD_DIR : Path
}.

(** [d.get(k)] for a dict written as its items. *)
Fixpoint lookup (k : string) (d : list (string * string)) : option string :=
  match d with
  | [] => None
  | (k', v) :: rest => if (k =? k')%string then Some v else lookup k rest
  end.

Section Check.
Variable env : Env.
Variable K : Constants.
Variable system : string.       (* [platform.system()] *)

Definition get_platform_executable (name : string) : M Path :=
  let executables :=
    [("Windows", (name ++ ".exe")%string);
     ("Linux", (name ++ "-linux")%string);
     ("Darwin", (name ++ "-macos")%string)] in
  match lookup system executables with
  | Some exe_name =>
      if truthy exe_name
      then ret {| str := (str (DOWNLOAD_DIR K) ++ os_sep env ++ exe_name)%string;
                  parent := str (DOWNLOAD_DIR K);
                  name := exe_name |}
      else raise (PyError "RuntimeError" ("Unsupported operating system: " ++ system))
  | None => raise (PyError "RuntimeError" ("Unsupported operating system: " ++ system))
  end.

(** [[name for name, path in dependencies.items() if not Path(path).exists()]] *)
Fixpoint missing_deps (dependencies : list (string * Path)) : M (list string) :=
  match dependencies with
  | [] => ret []
  | (dep, path) :: rest =>
      found <- path_exists env (str path) ;;
      missing <- missing_deps rest ;;
      ret (if found : bool then missing else dep :: missing)
  end.

Fixpoint report_missing (missing : list string) : M unit :=
  match missing with
  | [] => ret tt
  | dep :: rest =>
      print Stdout ("[!] Error: Dependency '" ++ dep ++ "' is missing.") ;;
      report_missing rest
  end.

Definition dependencies (fetch : Path) : list (string * Path) :=
  [("Python Environment", PYTHON_EXE K);
   ("ADB", ADB_EXE K);
   ("Fastboot", FASTBOOT_EXE K);
   ("RSA4096 Key", KEY_RSA4096 K);
   ("RSA2048 Key", KEY_RSA2048 K);
   ("avbtool", AVBTOOL_PY K);
   ("fetch tool", fetch);
   ("edl-ng", EDL_NG_EXE K);
   ("libusb", LIBUSB_DLL K)].

Definition check_dependencies : M unit :=
  print Stdout "--- Checking for required files ---" ;;
  fetch <- get_platform_executable "fetch" ;;
  missing <- missing_deps (dependencies fetch) ;;
  match missing with
  | [] => print Stdout ("[+] All dependencies are present." ++ String "010" "")
  | _ =>
      report_missing missing ;;
      print Stdout
        "Please run one of the main scripts (e.g., root.bat) to install all required files." ;;
      raise (SystemExit 1)
  end.

End Check.

End Dependencies.

(** ** [main.py]: its own process runner *)

Module Main.
Import Utils.

Section Runner.
Variable env : Env.

(** [run_command(command, check=check)] of [main.py]: the output of the
    child is always captured, then echoed. *)
Definition run_command (command : list string) (check : bool) : M CompletedProcess :=
  try_
    (process <- subprocess_run env command check true ;;
     echo_stripped Stdout "" (stdout process) ;;
     echo_stripped Stderr "" (stderr process) ;;
     ret process)
    (fun e => is_CalledProcessError e || is_FileNotFoundError e)
    (fun e =>
       match e with
       | CalledProcessError rc _ out err =>
           print Stderr ("Error executing command: " ++ join " " command) ;;
           print Stderr ("Return code: " ++ str_of_Z rc) ;;
           echo_stripped Stderr ("Stdout:" ++ String "010" "") out ;;
           echo_stripped Stderr ("Stderr:" ++ String "010" "") err ;;
           raise e
       | FileNotFoundError _ _ =>
           match command with
           | c :: _ => print Stderr ("Error: Command not found - " ++ c) ;; raise e
           | [] => raise (PyError "IndexError" "list index out of range")
           end
       | _ => raise e
       end).

End Runner.

End Main.

(** ** [tools/edit_vndrboot.py] *)

Module EditVndrboot.

Definition bytes : Type := list Byte.byte.

Fixpoint starts_with (p s : bytes) : bool :=
  match p, s with
  | [], _ => true
  | _ :: _, [] => false
  | a :: p', b :: s' => Byte.eqb a b && starts_with p' s'
  end.

(** [s.count(p)] for a non-empty [p]: the occurrences are counted from the
    left and do not overlap; [skip] bytes of the last occurrence are still to
    be passed. *)
Fixpoint count_from (skip : nat) (p s : bytes) : nat :=
  match s with
  | [] => 0
  | _ :: t =>
      match skip with
      | S k => count_from k p t
      | O =>
          if starts_with p s then S (count_from (List.length p - 1) p t)
          else count_from 0 p t
      end
  end.

Definition count (p s : bytes) : nat := count_from 0 p s.

(** [s.replace(p, r)] for a non-empty [p]. *)
Fixpoint replace_from (skip : nat) (p r s : bytes) : bytes :=
  match s with
  | [] => []
  | b :: t =>
      match skip with
      | S k => replace_from k p r t
      | O =>
          if starts_with p s then (r ++ replace_from (List.length p - 1) p r t)%list
          else b :: replace_from 0 p r t
      end
  end.

Definition replace (p r s : bytes) : bytes := replace_from 0 p r s.

(** [b"\x2E\x52\x4F\x57"] (.ROW) and [b"\x2E\x50\x52\x43"] (.PRC) *)
Definition dot_ROW : bytes := [Byte.x2e; Byte.x52; Byte.x4f; Byte.x57].
Definition dot_PRC : bytes := [Byte.x2e; Byte.x50; Byte.x52; Byte.x43].
(** [b"\x49\x52\x4F\x57"] (IROW) and [b"\x49\x50\x52\x43"] (IPRC) *)
Definition I_ROW : bytes := [Byte.x49; Byte.x52; Byte.x4f; Byte.x57].
Definition I_PRC : bytes := [Byte.x49; Byte.x50; Byte.x52; Byte.x43].

(** The items of [patterns_to_find], in the order they were written. *)
Definition patterns_to_find : list (bytes * bytes) :=
  [(dot_ROW, dot_PRC); (I_ROW, I_PRC)].

(** What the script prints. *)
Inductive line : Type :=
| Usage
| InputNotFound
| Found (target : bytes) (times : nat)
| PatchSuccessful (total : nat)
| NoPatterns
| FileError (e : exn)
| Unexpected (e : exn).

(** The [for target, replacement in patterns_to_find.items()] loop. *)
Fixpoint patch (patterns : list (bytes * bytes)) (modified_content : bytes)
    (found_count : nat) : bytes * nat * list line :=
  match patterns with
  | [] => (modified_content, found_count, [])
  | (target, replacement) :: rest =>
      let n := count target modified_content in
      if (0 <? n)%nat
      then
        let '(m, f, out) :=
          patch rest (replace target replacement modified_content) (found_count + n) in
        (m, f, Found target n :: out)
      else patch rest modified_content found_count
  end.

(** How a run ends: [main] returns, [sys.exit] is called, or an exception
    that is no [Exception] goes through. *)
Inductive ending : Type :=
| Returned
| SysExit (code : Z)
| Uncaught (e : exn).

Record Run : Type := {
  stdout : list line;
  written : option bytes;        (* what [output_file.write_bytes] was given *)
  ended : ending
}.

(** The files as the script meets them: whether the input exists, what
    reading it gives, what writing the output gives. *)
Record Files : Type := {
  input_exists : bool;
  read_bytes : exn + bytes;
  write_bytes : bytes -> option exn
}.

(** The classes that are [OSError], of which [IOError] is another name, or
    are built-in subclasses of it. *)
Definition os_errors : list string :=
  ["OSError"; "BlockingIOError"; "ChildProcessError"; "ConnectionError";
   "BrokenPipeError"; "ConnectionAbortedError"; "ConnectionRefusedError";
   "ConnectionResetError"; "FileExistsError"; "FileNotFoundError";
   "InterruptedError"; "IsADirectoryError"; "NotADirectoryError";
   "PermissionError"; "ProcessLookupError"; "TimeoutError"].

(** [isinstance(e, IOError)], for the exceptions of the model. *)
Definition is_IOError (e : exn) : bool :=
  match e with
  | FileNotFoundError _ _ => true
  | PyError cls _ => mem cls os_errors
  | _ => false
  end.

Definition on_exception (out : list line) (w : option bytes) (e : exn) : Run :=
  if is_IOError e
  then {| stdout := (out ++ [FileError e])%list; written := w; ended := SysExit 1 |}
  else if is_Exception e
  then {| stdout := (out ++ [Unexpected e])%list; written := w; ended := SysExit 1 |}
  else {| stdout := out; written := w; ended := Uncaught e |}.

Definition main (argv : list string) (fs : Files) : Run :=
  if negb (List.length argv =? 2)%nat
  then {| stdout := [Usage]; written := None; ended := SysExit 1 |}
  else if negb (input_exists fs)
  then {| stdout := [InputNotFound]; written := None; ended := SysExit 1 |}
  else
    match read_bytes fs with
    | inl e => on_exception [] None e
    | inr content =>
        let '(modified_content, found_count, out) := patch patterns_to_find content 0 in
        if (0 <? found_count)%nat
        then
          match write_bytes fs modified_content with
          | Some e => on_exception out (Some modified_content) e
          | None =>
              {| stdout := (out ++ [PatchSuccessful found_count])%list;
                 written := Some modified_content;
                 ended := Returned |}
          end
        else {| stdout := (out ++ [NoPatterns])%list; written := None; ended := Returned |}
    end.

End EditVndrboot.

Import Utils Device.

(** ** The specification's own wording, for comparison with the code *)

Module Spec.




End Spec.

(** ** Reading a trace *)

Arguments n_spawn : simpl never.
Arguments n_comports : simpl never.
Arguments n_sleep : simpl never.
Arguments n_exists : simpl never.
Arguments n_mkdir : simpl never.
Arguments n_input : simpl never.

(** The argument vectors of the child processes of a trace, newest first. *)
Fixpoint spawned (l : list event) : list (list string) :=
  match l with
  | [] => []
  | Spawn argv _ _ :: t => argv :: spawned t
  | _ :: t => spawned t
  end.

(** What the program itself printed on a stream, newest first. *)
Fixpoint printed (s : stream) (l : list event) : list string :=
  match l with
  | [] => []
  | Printed Stdout text :: t =>
      match s with Stdout => text :: printed s t | Stderr => printed s t end
  | Printed Stderr text :: t =>
      match s with Stderr => text :: printed s t | Stdout => printed s t end
  | _ :: t => printed s t
  end.

(** [st'] is [st] after the events [new], newest first. *)
Definition extends (st st' : State) (new : list event) : Prop :=
  trace st' = (new ++ trace st)%list /\ edl_port st' = edl_port st.

(** Events that ask nothing of the ports, the clock, the file system or the
    keyboard. *)
Definition is_runner_event (e : event) : bool :=
  match e with
  | Say _ _ | Printed _ _ | Spawn _ _ _ | ChildWrite _ _ => true
  | _ => false
  end.

(** What [subprocess.run] comes to for the next child. *)
Definition run_outcome (env : Env) (command : list string) (check capture : bool)
    (st : State) : res CompletedProcess :=
  match child_at env (n_spawn st) command with
  | Throws e => Raise e
  | Exits rc out err =>
      let so := if capture then Some out else None in
      let se := if capture then Some err else None in
      if check && negb (rc =? 0)%Z
      then Raise (CalledProcessError rc command so se)
      else Ok {| args := command; returncode := rc; stdout := so; stderr := se |}
  end.


(** The result of the silent Fastboot detector as a function of what
    running [fastboot devices] comes to. *)
Definition detect_fastboot (c : child) : res bool :=
  match c with
  | Exits _ out _ => Ok (truthy (strip out))
  | Throws e => if is_Exception e then Ok false else Raise e
  end.

(** What an [except] clause that prints its line for [e] and then returns
    [v] comes to: [v], or the exception of formatting the line. *)
Definition after_line {A} (l : exn + string) (v : A) : res A :=
  match l with
  | inr _ => Ok v
  | inl x => Raise x
  end.


(** The line can be formatted. *)
Definition formatted (l : exn + string) : bool :=
  match l with
  | inr _ => true
  | inl _ => false
  end.

(** The result of the Fastboot detector when it is not silent: a device
    that is found is announced first, with what [fastboot devices] wrote,
    and an announcement that cannot be formatted is an error like any other
    of the [try] block. *)
Definition detect_fastboot_aloud (env : Env) (c : child) : res bool :=
  let failed e :=
    after_line
      (error_line env "device_err_check_fastboot"
         "[!] Error checking for fastboot device: " e) false in
  match c with
  | Exits _ out _ =>
      if truthy (strip out) then
        match line env "device_found_fastboot"
                ("[+] Fastboot device found:" ++ String "010" "" ++ strip out)
                [("output", Text (strip out))] with
        | inr _ => Ok true
        | inl x => failed x
        end
      else Ok false
  | Throws e => if is_Exception e then failed e else Raise e
  end.

(** The port the scan of [check_edl_device] stops at. *)
Definition first_edl (ports : list port) : option string :=
  option_map device (find is_qualcomm_port ports).

(** The narration of the scan. *)
Definition scan_state (silent : bool) (ports : list port) (st : State) : State :=
  if silent then st
  else
    match first_edl ports with
    | Some _ => record (Say Stdout "device_found_edl") st
    | None => record (Say Stdout "device_connect_edl") (record (Say Stdout "device_no_edl") st)
    end.

(** The state once [check_edl_device] has asked for the ports. *)
Definition enumerated (silent : bool) (st : State) : State :=
  record Comports (if silent then st else record (Say Stdout "device_check_edl") st).

(** The result of the silent EDL detector as a function of what the port
    enumeration answers; it is also that of the detector that is not silent
    when the line it prints for an error can be formatted. *)
Definition detect_edl (answer : exn + list port) : res (option string) :=
  match answer with
  | inr ports => Ok (first_edl ports)
  | inl e => if is_Exception e then Ok None else Raise e
  end.

(** Events by which [run_command] shows itself on the console: the child it
    starts, what an uncaptured child writes, and its own lines on the
    standard error. *)
Definition is_quiet_event (e : event) : bool :=
  match e with
  | Spawn _ _ _ | ChildWrite _ _ | Printed Stderr _ => true
  | _ => false
  end.

(** Every child process that [m] starts has an argument vector in [Q], and
    [m] leaves [edl_port] alone. *)
Definition starts_only {A} (Q : list string -> Prop) (m : M A) : Prop :=
  forall st, exists new, extends st (snd (m st)) new /\ Forall Q (spawned new).

(** Of the labelled paths [items], looked for one after the other from the
    [n]-th existence check on, the labels of those that are not there. *)
Fixpoint absent (env : Env) (n : nat) (items : list (string * string)) : list string :=
  match items with
  | [] => []
  | (label, path) :: rest =>
      if exists_at env n path then absent env (S n) rest
      else label :: absent env (S n) rest
  end.

(** The state after the existence checks of [items]. *)
Fixpoint probed (items : list (string * string)) (st : State) : State :=
  match items with
  | [] => st
  | (_, path) :: rest => probed rest (record (Exists path) st)
  end.

(** The required files of [wait_for_files] with the paths looked for. *)
Definition required env (directory : Path) (files : list string) : list (string * string) :=
  map (fun f => (f, (str directory ++ os_sep env ++ f)%string)) files.

(** [p] occurs somewhere in [s]. *)
Fixpoint occurs (p s : EditVndrboot.bytes) : bool :=
  EditVndrboot.starts_with p s ||
  match s with
  | [] => false
  | _ :: t => occurs p t
  end.

(** No byte of [q] is [h]. *)
Definition free_of (h : Byte.byte) (q : EditVndrboot.bytes) : bool :=
  forallb (fun x => negb (Byte.eqb x h)) q.

(** Both replacements of [edit_vndrboot.py], one after the other. *)
Definition patched (content : EditVndrboot.bytes) : EditVndrboot.bytes :=
  EditVndrboot.replace EditVndrboot.I_ROW EditVndrboot.I_PRC
    (EditVndrboot.replace EditVndrboot.dot_ROW EditVndrboot.dot_PRC content).

(** ** Sample environments *)

Module Samples.

Definition st0 : State := {| trace := []; edl_port := None |}.

(** Nothing connected, every tool present and silent. *)
Definition idle : Env := {|
  child_at := fun _ _ => Exits 0 "" "";
  comports_at := fun _ => inr [];
  sleep_at := fun _ => false;
  exists_at := fun _ _ => true;
  mkdir_at := fun _ _ => None;
  input_at := fun _ => Some "";
  on_windows := true;
  os_sep := "\";
  lang := fun _ => None;
  format_field := fun _ _ => inl ("ValueError", "Invalid format specifier");
  signal_repr := fun _ => None
|}.

Definition with_child (f : nat -> list string -> child) (e : Env) : Env := {|
  child_at := f;
  comports_at := comports_at e;
  sleep_at := sleep_at e;
  exists_at := exists_at e;
  mkdir_at := mkdir_at e;
  input_at := input_at e;
  on_windows := on_windows e;
  os_sep := os_sep e;
  lang := lang e;
  format_field := format_field e;
  signal_repr := signal_repr e
|}.

Definition with_comports (f : nat -> exn + list port) (e : Env) : Env := {|
  child_at := child_at e;
  comports_at := f;
  sleep_at := sleep_at e;
  exists_at := exists_at e;
  mkdir_at := mkdir_at e;
  input_at := input_at e;
  on_windows := on_windows e;
  os_sep := os_sep e;
  lang := lang e;
  format_field := format_field e;
  signal_repr := signal_repr e
|}.

Definition path_of (s : string) : Path := {| str := s; parent := "."; name := s |}.

Definition tools : Constants := {|
  ADB_EXE := path_of "adb.exe";
  FASTBOOT_EXE := path_of "fastboot.exe";
  QSAHARASERVER_EXE := path_of "QSaharaServer.exe";
  FH_LOADER_EXE := path_of "fh_loader.exe";
  IMAGE_DIR := path_of "image";
  EDL_LOADER_FILENAME := "xbl_s_devprg_ns.melf";
  loader_prompt := "[STEP 1] Place the EDL loader file"
|}.

Definition qdloader : port := {|
  device := "COM7";
  description := Some "Qualcomm HS-USB QDLoader 9008 (COM7)";
  hwid := Some "USB VID:PID=05C6:9008 REV=0000"
|}.





(** Every child answers with [out] on its standard output and [err] on its
    standard error, and exits with 0. *)
Definition answering (out err : string) : Env :=
  with_child (fun _ _ => Exits 0 out err) idle.



(** The device shows up at the third look: the first two port listings are
    empty and the first two runs of [fastboot devices] print nothing. *)
Definition arriving : Env :=
  with_comports (fun n => if (n <? 2)%nat then inr [] else inr [qdloader])
    (with_child
       (fun n _ => if (n <? 2)%nat then Exits 0 "" ""
                   else Exits 0 "0123456789ABCDEF fastboot" "")
       idle).

(** ADB finds the device (first child), then no command can be started, and
    the text of the error holds a pair of braces. *)
Definition refusing_braced : Env :=
  with_child
    (fun n _ =>
       match n with
       | 0 => Exits 0 "" ""
       | _ => Throws (PyError "OSError" "could not open {port}")
       end)
    idle.

(** ADB finds the device (first child), then every command fails. *)
Definition refusing : Env :=
  with_child
    (fun n _ =>
       match n with
       | 0 => Exits 0 "" ""
       | _ => Exits 1 "" "error: no devices/emulators found"
       end)
    idle.

Definition chatty : Env :=
  with_child (fun _ _ => Exits 0 ("ok  " ++ String "010" (String "010" "")) "") idle.

End Samples.

Lemma n_spawn_record e st :
  n_spawn (record e st) = if is_spawn e then S (n_spawn st) else n_spawn st.
Proof. unfold n_spawn, count. cbn. now destruct (is_spawn e). Qed.

Lemma n_comports_record e st :
  n_comports (record e st) = if is_comports e then S (n_comports st) else n_comports st.
Proof. unfold n_comports, count. cbn. now destruct (is_comports e). Qed.

Lemma n_sleep_record e st :
  n_sleep (record e st) = if is_sleep e then S (n_sleep st) else n_sleep st.
Proof. unfold n_sleep, count. cbn. now destruct (is_sleep e). Qed.

Lemma n_exists_record e st :
  n_exists (record e st) = if is_exists e then S (n_exists st) else n_exists st.
Proof. unfold n_exists, count. cbn. now destruct (is_exists e). Qed.

Lemma n_mkdir_record e st :
  n_mkdir (record e st) = if is_mkdir e then S (n_mkdir st) else n_mkdir st.
Proof. unfold n_mkdir, count. cbn. now destruct (is_mkdir e). Qed.

Lemma n_input_record e st :
  n_input (record e st) = if is_input e then S (n_input st) else n_input st.
Proof. unfold n_input, count. cbn. now destruct (is_input e). Qed.

Ltac counters :=
  repeat (rewrite ?n_spawn_record, ?n_comports_record, ?n_sleep_record,
            ?n_exists_record, ?n_mkdir_record, ?n_input_record;
          cbn [is_spawn is_comports is_sleep is_exists is_mkdir is_input]).

(** ** Facts about the Python string operations *)








(** ** The port scanner *)


Lemma scan_ports_run silent ports st :
  scan_ports silent ports st = (Ok (first_edl ports), scan_state silent ports st).
Proof.
  induction ports as [|p rest IH].
  - destruct silent; reflexivity.
  - unfold scan_state, first_edl in *. cbn.
    destruct (is_qualcomm_port p) eqn:E.
    + destruct silent; reflexivity.
    + exact IH.
Qed.



(** Whatever [str.format] raises is an [Exception]. *)
Lemma format_from_raises env kwargs s :
  forall r x, format_from env r kwargs s = inl x -> is_Exception x = true.
Proof.
  assert (Hb : forall from x, beyond env from kwargs = inl x -> is_Exception x = true).
  { intros from x. unfold beyond.
    destruct (format_field env from kwargs) as [[cls detail]|text]; [|discriminate].
    now intros [= <-]. }
  assert (Ht : forall head rest x,
             (forall y, rest = inl y -> is_Exception y = true) ->
             then_ head rest = inl x -> is_Exception x = true).
  { intros head [y|text] x Hy; cbn; [|discriminate]. intros [= <-]. now apply Hy. }
  induction s as [|c t IH]; intros r x; cbn.
  - destruct r; try discriminate; now intros [= <-].
  - destruct r as [|from|from name|].
    + destruct (c =? "{")%char; [apply IH|].
      destruct (c =? "}")%char; [apply IH|].
      apply Ht. intros y. apply IH.
    + destruct (c =? "{")%char; [apply Ht; intros y; apply IH|].
      destruct ((c =? "}")%char || is_markup c); [apply Hb | apply IH].
    + destruct (c =? "}")%char.
      * destruct (all_digits name); [apply Hb|].
        destruct (lookup name kwargs); [apply Ht; intros y; apply IH|].
        now intros [= <-].
      * destruct (is_markup c); [apply Hb | apply IH].
    + destruct (c =? "}")%char; [apply Ht; intros y; apply IH|].
      now intros [= <-].
Qed.

Lemma line_raises env key default kwargs x :
  line env key default kwargs = inl x -> is_Exception x = true.
Proof. apply format_from_raises. Qed.

Lemma error_line_raises env key prefix e x :
  error_line env key prefix e = inl x -> is_Exception x = true.
Proof. apply line_raises. Qed.

(** A text without braces is formatted to itself.  So without a
    translation for its key, the line of an [except] clause can be printed
    whenever the text of the error holds no brace. *)
Lemma format_plain env kwargs s :
  has_char "{" s = false -> has_char "}" s = false ->
  format env s kwargs = inr s.
Proof.
  unfold format. induction s as [|c t IH]; cbn; [reflexivity|].
  intros Ho Hc.
  apply orb_false_elim in Ho as [Ho Ho'], Hc as [Hc Hc'].
  rewrite Ho, Hc, (IH Ho' Hc'). reflexivity.
Qed.

Lemma has_char_app c s t : has_char c (s ++ t) = has_char c s || has_char c t.
Proof.
  induction s as [|d s IH]; cbn; [reflexivity|]. now rewrite IH, orb_assoc.
Qed.

Lemma error_line_plain env key prefix e :
  lang env key = None ->
  has_char "{" prefix = false -> has_char "}" prefix = false ->
  has_char "{" (str_of env e) = false -> has_char "}" (str_of env e) = false ->
  error_line env key prefix e = inr (prefix ++ str_of env e)%string.
Proof.
  intros Hlang Ho Hc Ho' Hc'. unfold error_line, line, lang_get. rewrite Hlang.
  apply format_plain; rewrite has_char_app; [now rewrite Ho, Ho' | now rewrite Hc, Hc'].
Qed.

(** The line of an [except] clause is printed, or the exception of its
    formatting is raised. *)
Lemma say_error_run env key prefix e st :
  say_error env key prefix e st =
  match error_line env key prefix e with
  | inr _ => (Ok tt, record (Say Stderr key) st)
  | inl x => (Raise x, st)
  end.
Proof.
  unfold say_error, say_format, error_line.
  now destruct (line env key (prefix ++ str_of env e) [("e", Error e)]).
Qed.

Lemma say_format_run env s key default kwargs st :
  say_format env s key default kwargs st =
  match line env key default kwargs with
  | inr _ => (Ok tt, record (Say s key) st)
  | inl x => (Raise x, st)
  end.
Proof.
  unfold say_format. now destruct (line env key default kwargs).
Qed.


Arguments say_error : simpl never.
Arguments say_format : simpl never.
Arguments error_line : simpl never.
Arguments line : simpl never.

(** Goes through the formatted lines of the goal, by whether each can be
    formatted; what [str.format] raises is an [Exception]. *)
Ltac lines :=
  repeat (rewrite ?say_error_run, ?say_format_run;
          match goal with
          | |- context [match error_line ?env ?k ?p ?e with _ => _ end] =>
              let x := fresh "x" in
              let El := fresh "El" in
              destruct (error_line env k p e) as [x|?] eqn:El;
              [try rewrite (error_line_raises _ _ _ _ _ El)|]; clear El
          | |- context [match line ?env ?k ?d ?kw with _ => _ end] =>
              let x := fresh "x" in
              let El := fresh "El" in
              destruct (line env k d kw) as [x|?] eqn:El;
              [try rewrite (line_raises _ _ _ _ _ El)|]; clear El
          end; cbv beta iota; cbn [fst snd]).
Lemma check_edl_device_run env silent st :
  check_edl_device env silent st =
  match comports_at env (n_comports st) with
  | inr ports => (Ok (first_edl ports), scan_state silent ports (enumerated silent st))
  | inl e =>
      if is_Exception e
      then
        if silent then (Ok None, enumerated silent st)
        else
          match error_line env "device_err_check_edl"
                  "[!] Error checking for EDL device: " e with
          | inr _ =>
              (Ok None, record (Say Stderr "device_err_check_edl") (enumerated silent st))
          | inl x => (Raise x, enumerated silent st)
          end
      else (Raise e, enumerated silent st)
  end.
Proof.
  unfold check_edl_device, enumerated, bind, try_, when, comports, say, emit, ret.
  destruct silent; cbn -[say_error]; counters;
    (destruct (comports_at env (n_comports st)) as [e|ports];
     [ destruct (is_Exception e); [|reflexivity]
     | rewrite scan_ports_run; reflexivity ]).
  - reflexivity.
  - rewrite say_error_run.
    now destruct (error_line env "device_err_check_edl" _ e).
Qed.


(** The hardware id is matched whatever its letter case, the description
    only as it is written. *)
Example hwid_of_edl_port :
  is_qualcomm_port {| device := "COM7"; description := None;
                      hwid := Some "USB VID:PID=05C6:9008 REV=0000" |} = true /\
  is_qualcomm_port {| device := "COM7"; description := None;
                      hwid := Some "usb vid:pid=05c6:9008" |} = true /\
  is_qualcomm_port {| device := "COM3"; description := None;
                      hwid := Some "USB VID:PID=18D1:4EE0" |} = false /\
  is_qualcomm_port {| device := "COM7"; description := Some "qualcomm hs-usb 9008";
                      hwid := None |} = false /\
  is_qualcomm_port {| device := "COM7"; description := Some "Qualcomm HS-USB QDLoader 9008";
                      hwid := Some "" |} = true.
Proof. repeat split. Qed.


(** ** Frames: what a run adds to the trace *)

Lemma extends_refl st : extends st st [].
Proof. split; reflexivity. Qed.

Lemma extends_record e st st' new :
  extends st st' new -> extends st (record e st') (e :: new).
Proof. intros [Ht Hp]. split; cbn; [now rewrite Ht | exact Hp]. Qed.

Lemma extends_trans st st1 st2 n1 n2 :
  extends st st1 n1 -> extends st1 st2 n2 -> extends st st2 (n2 ++ n1)%list.
Proof.
  intros [Ht1 Hp1] [Ht2 Hp2]. split.
  - now rewrite Ht2, Ht1, app_assoc.
  - now rewrite Hp2.
Qed.

Lemma spawned_app l1 l2 : spawned (l1 ++ l2) = (spawned l1 ++ spawned l2)%list.
Proof.
  induction l1 as [|e t IH]; cbn; [reflexivity|].
  destruct e; cbn; now rewrite ?IH.
Qed.

Lemma count_app p l1 l2 : count p (l1 ++ l2) = count p l1 + count p l2.
Proof. unfold count. now rewrite filter_app, length_app. Qed.

Lemma runner_events_count (p : event -> bool) new :
  (forall e, is_runner_event e = true -> p e = false) ->
  forallb is_runner_event new = true -> count p new = 0.
Proof.
  intros Hp. unfold count. induction new as [|e t IH]; cbn; [reflexivity|].
  intros H. apply andb_prop in H as [He Ht]. rewrite (Hp e He). now apply IH.
Qed.

Ltac frame :=
  repeat first [ apply extends_refl | apply extends_record | eassumption
               | (eapply extends_trans; [|eassumption]) ].

(** ** The process runner *)

Lemma echo_stripped_frame s prefix text st :
  exists new,
    echo_stripped s prefix text st = (Ok tt, snd (echo_stripped s prefix text st)) /\
    extends st (snd (echo_stripped s prefix text st)) new /\
    forallb is_runner_event new = true /\ spawned new = [].
Proof.
  unfold echo_stripped, when, print, emit, ret.
  destruct text as [t|]; [destruct (truthy t)|]; cbn;
    eexists; (split; [reflexivity|]); (split; [frame|]); split; reflexivity.
Qed.

Lemma run_command_frame env command check capture st :
  exists new,
    fst (run_command env command check capture st) = run_outcome env command check capture st /\
    extends st (snd (run_command env command check capture st)) new /\
    forallb is_runner_event new = true /\
    spawned new = [command].
Proof.
  unfold run_command, run_outcome, subprocess_run, try_, bind, when, echo_stripped,
    print, emit, ret, raise.
  destruct (child_at env (n_spawn st) command) as [rc out err|e].
  - destruct capture, check, (rc =? 0)%Z; cbn;
      try (eexists; (split; [reflexivity|]); (split; [frame|]); split; reflexivity);
      destruct (truthy out), (truthy err); cbn;
      eexists; (split; [reflexivity|]); (split; [frame|]); split; reflexivity.
  - destruct e as [d f|rc c o e'| | | | |]; cbn;
      try (eexists; (split; [reflexivity|]); (split; [frame|]); split; reflexivity).
    destruct o as [o|], e' as [e'|]; cbn;
      try destruct (truthy o); try destruct (truthy e'); cbn;
      eexists; (split; [reflexivity|]); (split; [frame|]); split; reflexivity.
Qed.

Lemma run_outcome_settles env command check capture st :
  run_outcome env command check capture st <> Diverge.
Proof.
  unfold run_outcome.
  destruct (child_at env (n_spawn st) command) as [rc out err|e]; [|discriminate].
  destruct (check && negb (rc =? 0)%Z); discriminate.
Qed.


Lemma run_outcome_record env command check capture e st :
  is_spawn e = false ->
  run_outcome env command check capture (record e st)
    = run_outcome env command check capture st.
Proof.
  intros H. unfold run_outcome. now rewrite n_spawn_record, H.
Qed.

(** Runs the next child of the goal: its result is a value or a raise. *)
Ltac run_next v e Hext Hsp :=
  match goal with
  | |- context [run_command ?env ?c ?ch ?cap ?s] =>
      let new := fresh "new" in
      let Hr := fresh "Hr" in
      let Hq := fresh "Hq" in
      let Hsettle := fresh "Hsettle" in
      destruct (run_command_frame env c ch cap s) as (new & Hr & Hext & Hq & Hsp);
      pose proof (run_outcome_settles env c ch cap s) as Hsettle;
      rewrite <- Hr in Hsettle; clear Hr;
      let s1 := fresh "s" in
      destruct (run_command env c ch cap s) as [[v|e|] s1]; cbn [fst snd] in *;
      [ | | exfalso; apply Hsettle; reflexivity ]; clear Hsettle
  end.

Lemma run_command_uncaptured env command check st rc out err :
  child_at env (n_spawn st) command = Exits rc out err ->
  check && negb (rc =? 0)%Z = false ->
  run_command env command check false st =
  (Ok {| args := command; returncode := rc; stdout := None; stderr := None |},
   record (ChildWrite Stderr err)
     (record (ChildWrite Stdout out) (record (Spawn command check false) st))).
Proof.
  intros Hchild Hcheck.
  unfold run_command, subprocess_run, try_, bind, when, echo_stripped, ret.
  rewrite Hchild, Hcheck. reflexivity.
Qed.

(** C5.  A run without capturing, evaluated: the child wrote "ok", two
    blanks and two line ends.  The result carries no output ([stdout] and
    [stderr] are [None]), the text reached the console from the child itself
    with its trailing white space, and [run_command] printed nothing: its
    echo of the stripped text never runs. *)
Theorem run_command_uncaptured_is_not_echoed :
  let command := ["adb.exe"; "wait-for-device"] in
  let r := run_command Samples.chatty command true false Samples.st0 in
  fst r = Ok {| args := command; returncode := 0; stdout := None; stderr := None |} /\
  trace (snd r) =
    [ChildWrite Stderr "";
     ChildWrite Stdout ("ok  " ++ String "010" (String "010" ""));
     Spawn command true false] /\
  printed Stdout (trace (snd r)) = [] /\
  ~ In (Printed Stdout "ok") (trace (snd r)).
Proof.
  cbv zeta. rewrite (run_command_uncaptured Samples.chatty _ true Samples.st0 0
                       ("ok  " ++ String "010" (String "010" "")) "" eq_refl eq_refl).
  cbn. repeat split.
  intros [H|[H|[H|[]]]]; discriminate H.
Qed.

(** ** The Sahara stage *)

Lemma load_firehose_programmer_absent env K loader_path port st :
  exists_at env (n_exists st) (str (QSAHARASERVER_EXE K)) = false ->
  load_firehose_programmer env K loader_path port st =
  (Raise (FileNotFoundError "device_err_qsahara_missing" None),
   record (Exists (str (QSAHARASERVER_EXE K))) st).
Proof.
  intros H. unfold load_firehose_programmer, bind, path_exists. now rewrite H.
Qed.

Lemma load_firehose_programmer_present env K loader_path port st :
  exists_at env (n_exists st) (str (QSAHARASERVER_EXE K)) = true ->
  exists new,
    extends st (snd (load_firehose_programmer env K loader_path port st)) new /\
    spawned new = [cmd_sahara K loader_path port].
Proof.
  intros H.
  unfold load_firehose_programmer, bind, path_exists, say, say_err, emit, try_, raise, ret.
  rewrite H. cbn.
  run_next v e Hext Hsp; [|destruct (is_CalledProcessError e)]; cbn;
    eexists; (split; [frame|]); cbn; now rewrite spawned_app, Hsp.
Qed.


(** ** The flash plan *)

Lemma require_flash_tools_frame env K st :
  exists new,
    extends st (snd (require_flash_tools env K st)) new /\ spawned new = [].
Proof.
  unfold require_flash_tools, bind, path_exists, say, emit, raise, ret.
  destruct (exists_at env (n_exists st) (str (QSAHARASERVER_EXE K))); cbn.
  - destruct (exists_at env _ (str (FH_LOADER_EXE K))); cbn;
      eexists; (split; [frame|reflexivity]).
  - eexists; (split; [frame|reflexivity]).
Qed.

Lemma load_firehose_programmer_spawns env K loader_path port st :
  exists new,
    extends st (snd (load_firehose_programmer env K loader_path port st)) new /\
    (spawned new = [] \/ spawned new = [cmd_sahara K loader_path port]).
Proof.
  destruct (exists_at env (n_exists st) (str (QSAHARASERVER_EXE K))) eqn:Hexe.
  - destruct (load_firehose_programmer_present env K loader_path port st Hexe)
      as (new & Hext & Hsp).
    exists new. split; [exact Hext|]. now right.
  - rewrite (load_firehose_programmer_absent env K loader_path port st Hexe).
    cbn. eexists. split; [frame|]. now left.
Qed.

(** C1.  Once the tools are found, a failure of the Sahara upload is the
    failure of [edl_rawprogram], which stops in the state the upload left:
    nothing runs after it, and the Firehose invocation is not among the
    children started. *)
Theorem edl_rawprogram_short_circuit :
  forall env K loader_path memory_type raw_xmls patch_xmls port st st1 e st2,
    require_flash_tools env K st = (Ok tt, st1) ->
    load_firehose_programmer env K loader_path port st1 = (Raise e, st2) ->
    edl_rawprogram env K loader_path memory_type raw_xmls patch_xmls port st
      = (Raise e, st2) /\
    exists new,
      extends st st2 new /\
      ~ In (cmd_fh K loader_path memory_type raw_xmls patch_xmls port) (spawned new).
Proof.
  intros env K loader_path memory_type raw_xmls patch_xmls port st st1 e st2 Hreq Hload.
  split.
  - unfold edl_rawprogram, bind. now rewrite Hreq, Hload.
  - destruct (require_flash_tools_frame env K st) as (n1 & H1 & Hs1).
    destruct (load_firehose_programmer_spawns env K loader_path port st1)
      as (n2 & H2 & Hs2).
    rewrite Hreq in H1. rewrite Hload in H2. cbn in H1, H2.
    exists (n2 ++ n1)%list. split; [exact (extends_trans _ _ _ _ _ H1 H2)|].
    rewrite spawned_app, Hs1, app_nil_r.
    destruct Hs2 as [-> | ->]; [intros []|].
    intros [H|[]]. unfold cmd_sahara, cmd_fh in H. discriminate H.
Qed.

Lemma edl_rawprogram_short_circuit_witness :
  let env := Samples.with_child (fun _ _ => Exits 1 "" "") Samples.idle in
  let loader := Samples.path_of "xbl_s_devprg_ns.melf" in
  exists e st2,
    edl_rawprogram env Samples.tools loader "UFS" [] [] "COM7" Samples.st0
      = (Raise e, st2) /\
    exists new,
      extends Samples.st0 st2 new /\
      ~ In (cmd_fh Samples.tools loader "UFS" [] [] "COM7") (spawned new).
Proof.
  cbv zeta. eexists. eexists.
  eapply edl_rawprogram_short_circuit; [reflexivity | vm_compute; reflexivity].
Defined.

(** ** The detectors *)

Ltac run_child Hr Hext Hq Hsp :=
  match goal with
  | |- context [run_command ?env ?c ?ch ?cap ?s] =>
      let new := fresh "new" in
      destruct (run_command_frame env c ch cap s) as (new & Hr & Hext & Hq & Hsp);
      unfold run_outcome in Hr;
      repeat (rewrite ?n_spawn_record in Hr; cbn [is_spawn] in Hr);
      let r := fresh "r" in
      let s1 := fresh "s" in
      destruct (run_command env c ch cap s) as [r s1]; cbn [fst snd] in Hr, Hext
  end.

Lemma run_command_captured env command check st rc out err :
  child_at env (n_spawn st) command = Exits rc out err ->
  check && negb (rc =? 0)%Z = false ->
  run_command env command check true st =
  (Ok {| args := command; returncode := rc; stdout := Some out; stderr := Some err |},
   record (Spawn command check true) st).
Proof.
  intros Hchild Hcheck.
  unfold run_command, subprocess_run, try_, bind, when, ret.
  rewrite Hchild, Hcheck. reflexivity.
Qed.

Ltac settle Hq Hsp :=
  eexists; (split; [reflexivity|]); (split; [frame|]);
  cbn; rewrite ?app_nil_r, ?forallb_app, ?spawned_app, ?Hq, ?Hsp; split; reflexivity.

Lemma check_fastboot_device_run env K silent st :
  exists new,
    fst (check_fastboot_device env K silent st)
      = (if silent
         then detect_fastboot (child_at env (n_spawn st) [str (FASTBOOT_EXE K); "devices"])
         else detect_fastboot_aloud env
                (child_at env (n_spawn st) [str (FASTBOOT_EXE K); "devices"])) /\
    extends st (snd (check_fastboot_device env K silent st)) new /\
    forallb is_runner_event new = true /\
    spawned new = [[str (FASTBOOT_EXE K); "devices"]].
Proof.
  unfold check_fastboot_device, detect_fastboot_aloud, after_line,
    bind, try_, when, say, emit, strip_of, ret, raise.
  destruct silent; cbn [negb]; run_child Hr Hext Hq Hsp.
  - destruct (child_at env (n_spawn st) _) as [rc out err|e]; cbn in Hr; subst r; cbn;
      [ destruct (truthy (strip out)) | destruct (is_Exception e) ]; cbn;
      settle Hq Hsp.
  - destruct (child_at env (n_spawn st) _) as [rc out err|e]; cbn -[line error_line] in Hr;
      subst r; cbn -[say_format say_error line error_line].
    + destruct (truthy (strip out)); cbn -[say_format say_error line error_line];
        [|settle Hq Hsp].
      rewrite say_format_run.
      destruct (line env "device_found_fastboot" _ _) as [x|text] eqn:El;
        cbn -[say_error error_line]; [|settle Hq Hsp].
      rewrite (line_raises _ _ _ _ _ El), say_error_run.
      destruct (error_line env "device_err_check_fastboot" _ x); settle Hq Hsp.
    + destruct (is_Exception e); cbn -[say_error error_line]; [|settle Hq Hsp].
      rewrite say_error_run.
      destruct (error_line env "device_err_check_fastboot" _ e); settle Hq Hsp.
Qed.




(** ** The slot suffix *)






(** ** Entering EDL mode *)

Lemma wait_for_adb_frame env K skip st :
  exists new,
    extends st (snd (wait_for_adb env K skip st)) new /\
    fst (wait_for_adb env K skip st) <> Diverge.
Proof.
  unfold wait_for_adb, bind, try_, say, emit, raise.
  destruct skip; cbn.
  - eexists. split; [frame|discriminate].
  - run_next v e Hext Hsp; [|destruct (is_Exception e)]; cbn; lines;
      eexists; (split; [frame|discriminate]).
Qed.

Lemma reboot_to_edl_frame env K skip st :
  exists new,
    extends st (snd (reboot_to_edl env K skip st)) new /\
    fst (reboot_to_edl env K skip st) <> Diverge.
Proof.
  unfold reboot_to_edl, bind.
  destruct (wait_for_adb_frame env K skip st) as (n0 & H0 & Hs0).
  destruct (wait_for_adb env K skip st) as [[[]|e|] s0]; cbn [fst snd] in *;
    [ | eexists; split; [frame|discriminate] | now contradiction Hs0 ].
  unfold try_, bind, say, emit. destruct skip; cbn.
  - eexists. split; [frame|discriminate].
  - run_next v e Hext Hsp; [|destruct (is_Exception e)]; cbn; lines;
      eexists; (split; [frame|discriminate]).
Qed.

Lemma sleep_frame env secs st :
  exists new,
    extends st (snd (sleep env secs st)) new /\ fst (sleep env secs st) <> Diverge.
Proof.
  unfold sleep. destruct (sleep_at env (n_sleep st)); cbn;
    eexists; (split; [frame|discriminate]).
Qed.

Lemma check_edl_device_frame env silent st :
  exists new,
    extends st (snd (check_edl_device env silent st)) new /\
    spawned new = [] /\
    fst (check_edl_device env silent st) <> Diverge.
Proof.
  rewrite check_edl_device_run. unfold enumerated, scan_state.
  destruct (comports_at env (n_comports st)) as [e|ports].
  - destruct (is_Exception e), silent; cbn; lines;
      eexists; (split; [frame|]); split; (reflexivity || discriminate).
  - destruct silent, (first_edl ports); cbn;
      eexists; (split; [frame|]); split; (reflexivity || discriminate).
Qed.

Lemma edl_reboot_or_skip_frame env K skip st :
  exists new,
    extends st (snd (edl_reboot_or_skip env K skip st)) new /\
    fst (edl_reboot_or_skip env K skip st) <> Diverge.
Proof.
  unfold edl_reboot_or_skip, bind.
  destruct (check_edl_device_frame env true st) as (n0 & H0 & _ & Hs0).
  destruct (check_edl_device env true st) as [[found|e|] s0]; cbn [fst snd] in *;
    [ | eexists; split; [frame|discriminate] | now contradiction Hs0 ].
  destruct (truthy_opt found).
  { cbn. eexists. split; [frame|discriminate]. }
  assert (H1 : exists n1, extends st (snd (when (negb skip) (wait_for_adb env K skip) s0)) n1
                          /\ fst (when (negb skip) (wait_for_adb env K skip) s0) <> Diverge).
  { destruct skip; cbn.
    - eexists. split; [frame|discriminate].
    - destruct (wait_for_adb_frame env K false s0) as (n & Hn & Hd).
      eexists. split; [frame|exact Hd]. }
  destruct H1 as (n1 & H1 & Hs1).
  destruct (when (negb skip) (wait_for_adb env K skip) s0) as [[[]|e|] s1];
    cbn [fst snd] in *;
    [ | eexists; split; [frame|discriminate] | now contradiction Hs1 ].
  unfold say at 1, emit. cbn.
  match goal with
  | |- context [reboot_to_edl env K skip ?s] =>
      destruct (reboot_to_edl_frame env K skip s) as (n2 & H2 & Hs2);
      destruct (reboot_to_edl env K skip s) as [[[]|e|] s2]
  end; cbn [fst snd] in *;
    [ | eexists; split; [frame|discriminate] | now contradiction Hs2 ].
  destruct skip; cbn.
  - eexists. split; [frame|discriminate].
  - match goal with
    | |- context [sleep env 10 ?s] =>
        destruct (sleep_frame env 10 s) as (n3 & H3 & Hs3);
        destruct (sleep env 10 s) as [[[]|e|] s3]
    end; cbn [fst snd] in *;
      [ eexists; split; [frame|discriminate]
      | eexists; split; [frame|discriminate]
      | now contradiction Hs3 ].
Qed.

(** The call of [setup_edl_connection] does not bind, the same call
    without [lang=] does. *)
Lemma wait_for_files_call_binding :
  bind_error "wait_for_files" wait_for_files_params 3 ["lang"]
    = Some (TypeError "wait_for_files() got an unexpected keyword argument 'lang'") /\
  bind_error "wait_for_files" wait_for_files_params 3 [] = None.
Proof. split; reflexivity. Qed.

Lemma setup_edl_connection_run env K skip fuel st :
  setup_edl_connection env K skip fuel st =
  match edl_reboot_or_skip env K skip st with
  | (Ok _, st1) =>
      let st2 := record (Mkdir (str (IMAGE_DIR K)))
                   (record (Say Stdout "device_wait_loader_title") st1) in
      match mkdir_at env (n_mkdir st1) (str (IMAGE_DIR K)) with
      | Some e => (Raise e, st2)
      | None =>
          (Raise (TypeError "wait_for_files() got an unexpected keyword argument 'lang'"),
           st2)
      end
  | (Raise e, st1) => (Raise e, st1)
  | (Diverge, st1) => (Diverge, st1)
  end.
Proof.
  unfold setup_edl_connection, bind.
  destruct (edl_reboot_or_skip env K skip st) as [[u|e|] st1]; try reflexivity.
  unfold say at 1, emit, mkdir. counters.
  destruct (mkdir_at env (n_mkdir st1) (str (IMAGE_DIR K))); reflexivity.
Qed.

(** C3.  [setup_edl_connection] never returns a port and never records one:
    every run ends in a raised exception with [edl_port] as it was, and once
    the reboot-or-skip step is over and the image directory is made, the
    exception is the [TypeError] of calling [wait_for_files] with the keyword
    [lang], which is none of its parameters. *)
Theorem setup_edl_connection_type_error :
  forall env K skip fuel st,
    let r := setup_edl_connection env K skip fuel st in
    (exists e, fst r = Raise e) /\
    edl_port (snd r) = edl_port st /\
    (forall st1,
       edl_reboot_or_skip env K skip st = (Ok tt, st1) ->
       mkdir_at env (n_mkdir st1) (str (IMAGE_DIR K)) = None ->
       fst r = Raise (TypeError "wait_for_files() got an unexpected keyword argument 'lang'")).
Proof.
  intros env K skip fuel st. cbv zeta. rewrite setup_edl_connection_run.
  destruct (edl_reboot_or_skip_frame env K skip st) as (new & [Ht Hp] & Hs).
  destruct (edl_reboot_or_skip env K skip st) as [[[]|e|] st1]; cbn [fst snd] in *.
  - repeat split.
    + destruct (mkdir_at env (n_mkdir st1) (str (IMAGE_DIR K))); eexists; reflexivity.
    + destruct (mkdir_at env (n_mkdir st1) (str (IMAGE_DIR K))); exact Hp.
    + intros st1' Heq Hmk. injection Heq as <-. now rewrite Hmk.
  - repeat split; [eexists; reflexivity | exact Hp | discriminate].
  - now contradiction Hs.
Qed.

Lemma setup_edl_connection_type_error_witness :
  fst (setup_edl_connection Samples.idle Samples.tools false 3 Samples.st0)
    = Raise (TypeError "wait_for_files() got an unexpected keyword argument 'lang'").
Proof.
  destruct (setup_edl_connection_type_error Samples.idle Samples.tools false 3 Samples.st0)
    as (_ & _ & H).
  exact (H _ eq_refl eq_refl).
Defined.

(** C6.  When the detector finds a device in EDL mode at entry,
    [setup_edl_connection] starts no child process at all, so no reboot
    command is issued, however often it is called. *)
Theorem setup_edl_connection_skips_reboot :
  forall env K skip fuel st found st1,
    check_edl_device env true st = (Ok found, st1) ->
    truthy_opt found = true ->
    exists new,
      extends st (snd (setup_edl_connection env K skip fuel st)) new /\
      spawned new = [] /\
      In (Say Stdout "device_already_edl") new.
Proof.
  intros env K skip fuel st found st1 Hcheck Hfound.
  destruct (check_edl_device_frame env true st) as (n0 & H0 & Hs0 & _).
  rewrite setup_edl_connection_run.
  unfold edl_reboot_or_skip, bind. rewrite Hcheck in *. rewrite Hfound.
  cbn [fst snd] in *. unfold say, emit. cbn.
  destruct (mkdir_at env _ (str (IMAGE_DIR K))); cbn;
    eexists; (split; [frame|]); cbn; rewrite Hs0; split; auto.
Qed.

Lemma setup_edl_connection_skips_reboot_witness :
  let env := Samples.with_comports (fun _ => inr [Samples.qdloader]) Samples.idle in
  exists new,
    extends Samples.st0
      (snd (setup_edl_connection env Samples.tools false 3 Samples.st0)) new /\
    spawned new = [] /\
    In (Say Stdout "device_already_edl") new.
Proof.
  cbv zeta.
  eapply setup_edl_connection_skips_reboot; [reflexivity | reflexivity].
Defined.

(** ** The Fastboot variable reader *)


Lemma fastboot_reboot_system_run env K st :
  exists new,
    fst (fastboot_reboot_system env K st) =
      match run_outcome env [str (FASTBOOT_EXE K); "reboot"] true false st with
      | Ok _ => Ok tt
      | Raise e =>
          if is_Exception e
          then after_line
                 (error_line env "device_err_reboot"
                    "[!] Failed to send reboot command: " e) tt
          else Raise e
      | Diverge => Diverge
      end /\
    extends st (snd (fastboot_reboot_system env K st)) new /\
    spawned new = [[str (FASTBOOT_EXE K); "reboot"]].
Proof.
  unfold fastboot_reboot_system, bind, try_, say, emit, after_line. cbn.
  set (cmd := [str (FASTBOOT_EXE K); "reboot"]) in *.
  set (s0 := record (Say Stdout "device_reboot_sys_fastboot") st).
  destruct (run_command_frame env cmd true false s0) as (new & Hr & Hext & _ & Hsp).
  subst s0. rewrite run_outcome_record in Hr by reflexivity.
  destruct (run_command env cmd true false _) as [r s1]. cbn [fst snd] in *.
  rewrite <- Hr. clear Hr.
  destruct r as [v|e|]; [|destruct (is_Exception e)|]; cbn; lines;
    eexists; (split; [reflexivity|]); (split; [frame|]);
    cbn; now rewrite ?spawned_app, Hsp.
Qed.






(** ** The wait loops *)

Lemma spawn_count l : count is_spawn l = List.length (spawned l).
Proof.
  unfold count. induction l as [|x t IH]; cbn; [reflexivity|].
  destruct x; cbn; now rewrite ?IH.
Qed.

Lemma extends_n_spawn st st' new :
  extends st st' new -> n_spawn st' = List.length (spawned new) + n_spawn st.
Proof.
  intros [Ht _]. unfold n_spawn. now rewrite Ht, count_app, spawn_count.
Qed.

Lemma extends_n_sleep st st' new :
  extends st st' new -> forallb is_runner_event new = true -> n_sleep st' = n_sleep st.
Proof.
  intros [Ht _] Hq. unfold n_sleep. rewrite Ht, count_app.
  rewrite (runner_events_count is_sleep new); [reflexivity| |exact Hq].
  intros [] H; (reflexivity || discriminate H).
Qed.

Lemma check_edl_device_detects env silent st :
  silent = true \/
  (forall e, comports_at env (n_comports st) = inl e ->
             formatted (error_line env "device_err_check_edl"
                          "[!] Error checking for EDL device: " e) = true) ->
  fst (check_edl_device env silent st) = detect_edl (comports_at env (n_comports st)) /\
  n_comports (snd (check_edl_device env silent st)) = S (n_comports st) /\
  n_sleep (snd (check_edl_device env silent st)) = n_sleep st.
Proof.
  intros Hline.
  rewrite check_edl_device_run. unfold detect_edl, enumerated, scan_state.
  destruct (comports_at env (n_comports st)) as [e|ports].
  - destruct (is_Exception e), silent; cbn; counters; auto.
    destruct Hline as [Hs|Hline]; [discriminate Hs|].
    specialize (Hline e eq_refl).
    destruct (error_line env "device_err_check_edl" _ e); [discriminate Hline|].
    cbn. counters. auto.
  - destruct silent, (first_edl ports); cbn; counters; auto.
Qed.

Lemma check_fastboot_device_detects env K st :
  fst (check_fastboot_device env K true st)
    = detect_fastboot (child_at env (n_spawn st) [str (FASTBOOT_EXE K); "devices"]) /\
  n_spawn (snd (check_fastboot_device env K true st)) = S (n_spawn st) /\
  n_sleep (snd (check_fastboot_device env K true st)) = n_sleep st.
Proof.
  destruct (check_fastboot_device_run env K true st) as (new & Hr & Hext & Hq & Hsp).
  split; [exact Hr|]. split.
  - rewrite (extends_n_spawn _ _ _ Hext), Hsp. reflexivity.
  - exact (extends_n_sleep _ _ _ Hext Hq).
Qed.

Lemma wait_round_run env loop_key cancel_key st :
  sleep_at env (n_sleep st) = false ->
  wait_round env loop_key cancel_key st =
  (Ok tt, record (Sleep 2) (record (Say Stdout loop_key) st)).
Proof.
  intros H. unfold wait_round, bind, try_, say, emit, sleep. cbn. counters.
  now rewrite H.
Qed.








(** * Further properties of the code *)

(** ** Queries over ADB and Fastboot *)

Lemma rstrip_idempotent s : rstrip (rstrip s) = rstrip s.
Proof.
  induction s as [|c t IH]; cbn; [reflexivity|].
  destruct (rstrip t) as [|c' r] eqn:E.
  - destruct (is_space c) eqn:Ec; cbn; [reflexivity | now rewrite Ec].
  - cbn -[rstrip]. cbn in IH. cbn. now rewrite IH.
Qed.

Lemma rstrip_head c t : is_space c = false -> rstrip (String c t) = String c (rstrip t).
Proof.
  intros H. cbn. destruct (rstrip t); [now rewrite H | reflexivity].
Qed.

Lemma lstrip_head s :
  lstrip s = EmptyString \/ exists c t, lstrip s = String c t /\ is_space c = false.
Proof.
  induction s as [|c t IH]; cbn; [now left|].
  destruct (is_space c) eqn:E; [exact IH|].
  right. now exists c, t.
Qed.

Lemma strip_idempotent s : strip (strip s) = strip s.
Proof.
  unfold strip.
  destruct (lstrip_head s) as [-> | (c & t & -> & Hc)]; [reflexivity|].
  rewrite (rstrip_head c t Hc). cbn [lstrip]. rewrite Hc.
  rewrite (rstrip_head c _ Hc). now rewrite rstrip_idempotent.
Qed.

Lemma truthy_nonempty s : truthy s = true -> s <> "".
Proof. intros H ->. discriminate H. Qed.

Lemma mem_two x a b : mem x [a; b] = true -> x = a \/ x = b.
Proof.
  unfold mem. cbn. intros H.
  apply orb_prop in H as [H|H]; [left; now apply String.eqb_eq|].
  apply orb_prop in H as [H|H]; [right; now apply String.eqb_eq | discriminate H].
Qed.

(** X1.  Whatever the device and the tools answer, a model that
    [get_device_model] returns is not empty and has no white space around
    it. *)
Theorem get_device_model_is_stripped :
  forall env K skip st model,
    fst (get_device_model env K skip st) = Ok (Some model) ->
    model <> "" /\ strip model = model.
Proof.
  intros env K skip st model.
  unfold get_device_model, bind.
  destruct (wait_for_adb env K skip st) as [[[]|e0|] s0]; cbn [fst];
    try discriminate.
  destruct skip; [cbn; discriminate|].
  unfold say at 1, emit, try_, bind. cbn -[run_command strip].
  run_next v e Hext Hsp.
  - unfold strip_of. destruct (Utils.stdout v) as [out|]; cbn -[strip].
    + destruct (truthy (strip out)) eqn:E; cbn -[strip]; [|discriminate].
      rewrite say_format_run.
      destruct (line env "device_found_model" _ _) as [x|text] eqn:El; cbn -[strip].
      * rewrite (line_raises _ _ _ _ _ El). lines; cbn; discriminate.
      * intros H. injection H as <-.
        split; [now apply truthy_nonempty | apply strip_idempotent].
    + lines; cbn; discriminate.
  - destruct (is_Exception e); cbn; lines; cbn; discriminate.
Qed.

Lemma get_device_model_is_stripped_witness :
  let env := Samples.answering ("  TB320FC" ++ String "010" "") "" in
  fst (get_device_model env Samples.tools false Samples.st0) = Ok (Some "TB320FC") /\
  "TB320FC" <> "" /\ strip "TB320FC" = "TB320FC".
Proof.
  cbv zeta. split; [reflexivity|].
  apply (get_device_model_is_stripped
           (Samples.answering ("  TB320FC" ++ String "010" "") "")
           Samples.tools false Samples.st0).
  reflexivity.
Defined.

(** X2.  Whatever the device and the tools answer, on either path a slot
    suffix that is returned is "_a" or "_b". *)
Theorem slot_suffix_is_a_or_b :
  forall env K skip st suffix,
    fst (get_active_slot_suffix env K skip st) = Ok (Some suffix) \/
    fst (get_active_slot_suffix_from_fastboot env K st) = Ok (Some suffix) ->
    suffix = "_a" \/ suffix = "_b".
Proof.
  intros env K skip st suffix [H|H]; revert H.
  - unfold get_active_slot_suffix, bind.
    destruct (wait_for_adb env K skip st) as [[[]|e0|] s0]; cbn [fst];
      try discriminate.
    destruct skip; [cbn; discriminate|].
    unfold say at 1, emit, try_, bind. cbn -[run_command strip mem].
    run_next v e Hext Hsp.
    + unfold strip_of. destruct (Utils.stdout v) as [out|]; cbn -[strip mem].
      * destruct (mem (strip out) ["_a"; "_b"]) eqn:E; cbn -[strip];
          [|lines; cbn; discriminate].
        lines; cbn -[strip]; try discriminate.
        intros H. injection H as <-. now apply mem_two.
      * lines; cbn; discriminate.
    + destruct (is_Exception e); cbn; lines; cbn; discriminate.
  - unfold get_active_slot_suffix_from_fastboot, bind, say at 1, emit, try_.
    cbn -[run_command strip mem search_current_slot].
    run_next v e Hext Hsp.
    + unfold strip_of.
      destruct (Utils.stderr v) as [err|]; cbn -[strip mem search_current_slot];
        [|lines; cbn; discriminate].
      destruct (Utils.stdout v) as [out|]; cbn -[strip mem search_current_slot];
        [|lines; cbn; discriminate].
      destruct (search_current_slot _) as [g|]; cbn -[strip mem first_line truthy];
        [|lines; cbn; discriminate].
      destruct (mem (strip g) ["a"; "b"]) eqn:E; cbn -[strip first_line truthy];
        [|lines; cbn; discriminate].
      lines; cbn -[strip]; try discriminate.
      intros H. injection H as <-.
      destruct (mem_two _ _ _ E) as [-> | ->]; [now left | now right].
    + destruct (is_Exception e); cbn; lines; cbn; discriminate.
Qed.

Lemma slot_suffix_is_a_or_b_witness :
  let env := Samples.answering ("_b" ++ String "010" "") "current-slot: b" in
  fst (get_active_slot_suffix env Samples.tools false Samples.st0) = Ok (Some "_b") /\
  ("_b" = "_a" \/ "_b" = "_b").
Proof.
  cbv zeta. split; [reflexivity|].
  apply (slot_suffix_is_a_or_b
           (Samples.answering ("_b" ++ String "010" "") "current-slot: b")
           Samples.tools false Samples.st0 "_b").
  left. reflexivity.
Defined.

(** ** Talking to ADB *)

(** Runs the next child of the goal and keeps what it came to. *)
Ltac run_keep r Hr Hext Hsp :=
  match goal with
  | |- context [run_command ?env ?c ?ch ?cap ?s] =>
      let new := fresh "new" in
      let Hq := fresh "Hq" in
      destruct (run_command_frame env c ch cap s) as (new & Hr & Hext & Hq & Hsp);
      rewrite ?run_outcome_record in Hr by reflexivity;
      let s1 := fresh "s" in
      destruct (run_command env c ch cap s) as [r s1]; cbn [fst snd] in *
  end.

(** With ADB in use, [wait_for_adb] starts exactly one child, [adb
    wait-for-device], and fails exactly when that run fails: with the same
    exception, or, for an error whose line cannot be formatted, with the
    exception of [str.format]. *)
Lemma wait_for_adb_runs_one_child :
  forall env K st,
    exists new,
      extends st (snd (wait_for_adb env K false st)) new /\
      spawned new = [[str (ADB_EXE K); "wait-for-device"]] /\
      fst (wait_for_adb env K false st) =
        match run_outcome env [str (ADB_EXE K); "wait-for-device"] true false st with
        | Ok _ => Ok tt
        | Raise e =>
            if is_Exception e then
              match error_line env "device_err_wait_adb"
                      "[!] Error waiting for ADB device: " e with
              | inr _ => Raise e
              | inl x => Raise x
              end
            else Raise e
        | Diverge => Diverge
        end.
Proof.
  intros env K st.
  unfold wait_for_adb, bind, try_, say, emit, raise.
  cbn -[run_command].
  run_keep r Hr Hext Hsp. rewrite <- Hr.
  destruct r as [v|e|]; [|destruct (is_Exception e)|]; cbn; lines;
    eexists; (split; [frame|]); cbn; rewrite ?spawned_app, Hsp; split; reflexivity.
Qed.

(** X3.  Once ADB has found the device, an error of [adb reboot edl] or of
    [adb reboot bootloader] has a line printed for it first.  When that line
    can be formatted, [reboot_to_edl] swallows the error and returns
    normally, while [reboot_to_bootloader] raises it again; when it cannot,
    both raise the exception of [str.format]. *)
Theorem reboot_errors_swallowed_or_raised :
  forall env K st st1 e,
    wait_for_adb env K false st = (Ok tt, st1) ->
    is_Exception e = true ->
    (run_outcome env [str (ADB_EXE K); "reboot"; "edl"] true false st1 = Raise e ->
     fst (reboot_to_edl env K false st) =
       match error_line env "device_err_reboot"
               "[!] Failed to send reboot command: " e with
       | inr _ => Ok tt
       | inl x => Raise x
       end) /\
    (run_outcome env [str (ADB_EXE K); "reboot"; "bootloader"] true false st1 = Raise e ->
     fst (reboot_to_bootloader env K false st) =
       match error_line env "device_err_reboot"
               "[!] Failed to send reboot command: " e with
       | inr _ => Raise e
       | inl x => Raise x
       end).
Proof.
  intros env K st st1 e Hwait He. split; intros Hrun.
  - unfold reboot_to_edl, bind. rewrite Hwait.
    unfold try_, bind, say, emit. cbn -[run_command].
    run_keep r Hr Hext Hsp. rewrite Hrun in Hr. subst r. rewrite He.
    rewrite say_error_run. now destruct (error_line env "device_err_reboot" _ e).
  - unfold reboot_to_bootloader, bind. rewrite Hwait.
    unfold try_, bind, say, emit, raise. cbn -[run_command].
    run_keep r Hr Hext Hsp. rewrite Hrun in Hr. subst r. rewrite He.
    rewrite say_error_run. now destruct (error_line env "device_err_reboot" _ e).
Qed.

Lemma reboot_errors_swallowed_or_raised_witness :
  fst (reboot_to_edl Samples.refusing Samples.tools false Samples.st0) = Ok tt /\
  fst (reboot_to_bootloader Samples.refusing Samples.tools false Samples.st0)
    = Raise (CalledProcessError 1 ["adb.exe"; "reboot"; "bootloader"] None None) /\
  fst (reboot_to_edl Samples.refusing_braced Samples.tools false Samples.st0)
    = Raise (PyError "KeyError" "'port'") /\
  fst (reboot_to_bootloader Samples.refusing_braced Samples.tools false Samples.st0)
    = Raise (PyError "KeyError" "'port'").
Proof.
  split; [|split; [|split]].
  - apply (reboot_errors_swallowed_or_raised Samples.refusing Samples.tools Samples.st0
             (snd (wait_for_adb Samples.refusing Samples.tools false Samples.st0))
             (CalledProcessError 1 ["adb.exe"; "reboot"; "edl"] None None));
      reflexivity.
  - apply (reboot_errors_swallowed_or_raised Samples.refusing Samples.tools Samples.st0
             (snd (wait_for_adb Samples.refusing Samples.tools false Samples.st0))
             (CalledProcessError 1 ["adb.exe"; "reboot"; "bootloader"] None None));
      reflexivity.
  - apply (reboot_errors_swallowed_or_raised Samples.refusing_braced Samples.tools
             Samples.st0
             (snd (wait_for_adb Samples.refusing_braced Samples.tools false Samples.st0))
             (PyError "OSError" "could not open {port}"));
      reflexivity.
  - apply (reboot_errors_swallowed_or_raised Samples.refusing_braced Samples.tools
             Samples.st0
             (snd (wait_for_adb Samples.refusing_braced Samples.tools false Samples.st0))
             (PyError "OSError" "could not open {port}"));
      reflexivity.
Defined.

(** ** What reaches the console *)

Lemma quiet_printed new :
  forallb is_quiet_event new = true ->
  printed Stdout new = [] /\ (forall s key, ~ In (Say s key) new).
Proof.
  induction new as [|e t IH]; cbn; intros H.
  - split; [reflexivity | intros s key []].
  - apply andb_prop in H as [He Ht]. destruct (IH Ht) as [Hp Hs].
    split.
    + destruct e as [| [] | | | | | | | |]; cbn in *; try discriminate; exact Hp.
    + intros s key [Heq|Hin]; [subst e; discriminate He | exact (Hs s key Hin)].
Qed.

Lemma run_command_quiet env command check capture st :
  exists new,
    extends st (snd (run_command env command check capture st)) new /\
    forallb is_quiet_event new = true /\
    (capture = true -> forall s text, ~ In (ChildWrite s text) new).
Proof.
  unfold run_command, subprocess_run, try_, bind, when, echo_stripped,
    print, emit, ret, raise.
  destruct (child_at env (n_spawn st) command) as [rc out err|e].
  - destruct capture, check, (rc =? 0)%Z; cbn;
      try destruct (truthy out); try destruct (truthy err); cbn;
      eexists; (split; [frame|]); (split; [reflexivity|]);
      intros Hc s text Hin; try discriminate Hc; cbn in Hin;
      repeat (destruct Hin as [Hin|Hin]; [discriminate Hin|]); exact Hin.
  - destruct e as [d f|rc c o e'| | | | |]; cbn;
      try destruct o as [o|]; try destruct e' as [e'|]; cbn;
      try destruct (truthy o); try destruct (truthy e'); cbn;
      eexists; (split; [frame|]); (split; [reflexivity|]);
      intros Hc s text Hin; cbn in Hin;
      repeat (destruct Hin as [Hin|Hin]; [discriminate Hin|]); exact Hin.
Qed.

(** X4.  [run_command] never prints on the standard output, with or
    without capturing: what it prints itself goes to the standard error, and
    with capturing nothing of the child reaches the console directly. *)
Theorem run_command_never_prints_on_stdout :
  forall env command check capture st,
    exists new,
      extends st (snd (run_command env command check capture st)) new /\
      printed Stdout new = [] /\
      (capture = true -> forall s text, ~ In (ChildWrite s text) new).
Proof.
  intros env command check capture st.
  destruct (run_command_quiet env command check capture st) as (new & Hext & Hq & Hc).
  exists new. split; [exact Hext|]. split; [|exact Hc].
  exact (proj1 (quiet_printed new Hq)).
Qed.

(** X5.  A silent detector narrates nothing.  [check_edl_device(silent=True)]
    leaves no trace but the port listing itself, and
    [check_fastboot_device(silent=True)] none but its child and what
    [run_command] reports on the standard error. *)
Theorem silent_detectors_narrate_nothing :
  forall env K st,
    snd (check_edl_device env true st) = record Comports st /\
    exists new,
      extends st (snd (check_fastboot_device env K true st)) new /\
      printed Stdout new = [] /\
      (forall s key, ~ In (Say s key) new).
Proof.
  intros env K st. split.
  - rewrite check_edl_device_run. unfold enumerated, scan_state.
    destruct (comports_at env (n_comports st)) as [e|ports];
      [destruct (is_Exception e)|]; reflexivity.
  - unfold check_fastboot_device, bind, try_, when, strip_of, ret, raise.
    cbn -[run_command strip].
    destruct (run_command_quiet env [str (FASTBOOT_EXE K); "devices"] false true st)
      as (new & Hext & Hq & _).
    destruct (run_command env _ false true st) as [[v|e|] s1]; cbn [fst snd] in *.
    + destruct (Utils.stdout v) as [out|]; cbn -[strip];
        [destruct (truthy (strip out))|]; cbn;
        exists new; (split; [exact Hext|]); exact (quiet_printed new Hq).
    + destruct (is_Exception e); cbn;
        exists new; (split; [exact Hext|]); exact (quiet_printed new Hq).
    + exists new; (split; [exact Hext|]); exact (quiet_printed new Hq).
Qed.

(** ** Working without ADB *)

Lemma extends_spawned st st' new :
  extends st st' new -> spawned new = [] -> spawned (trace st') = spawned (trace st).
Proof.
  intros [Ht _] Hs. now rewrite Ht, spawned_app, Hs.
Qed.

Lemma edl_reboot_or_skip_manual env K st :
  exists new,
    extends st (snd (edl_reboot_or_skip env K true st)) new /\ spawned new = [].
Proof.
  unfold edl_reboot_or_skip, bind.
  destruct (check_edl_device_frame env true st) as (n0 & H0 & Hs0 & _).
  destruct (check_edl_device env true st) as [[found|e|] s0]; cbn [fst snd] in *;
    try (exists n0; split; assumption).
  destruct (truthy_opt found); cbn;
    eexists; (split; [frame|]); cbn; now rewrite ?Hs0.
Qed.

(** X6.  With [skip_adb] set, no child process is started by [wait_for_adb],
    [get_device_model], [get_active_slot_suffix], [reboot_to_edl],
    [reboot_to_bootloader] or [setup_edl_connection], whatever the outside
    world answers; the two queries return [None]. *)
Theorem skip_adb_starts_no_child :
  forall env K fuel st,
    fst (get_device_model env K true st) = Ok None /\
    fst (get_active_slot_suffix env K true st) = Ok None /\
    Forall (fun st' => spawned (trace st') = spawned (trace st))
      [snd (wait_for_adb env K true st);
       snd (get_device_model env K true st);
       snd (get_active_slot_suffix env K true st);
       snd (reboot_to_edl env K true st);
       snd (reboot_to_bootloader env K true st);
       snd (setup_edl_connection env K true fuel st)].
Proof.
  intros env K fuel st. split; [reflexivity|]. split; [reflexivity|].
  repeat (apply Forall_cons; [reflexivity|]).
  apply Forall_cons; [|apply Forall_nil].
  rewrite setup_edl_connection_run.
  destruct (edl_reboot_or_skip_manual env K st) as (new & Hext & Hs).
  destruct (edl_reboot_or_skip env K true st) as [[u|e|] s1]; cbn [fst snd] in *;
    try exact (extends_spawned _ _ _ Hext Hs).
  destruct (mkdir_at env (n_mkdir s1) (str (IMAGE_DIR K))); cbn;
    exact (extends_spawned _ _ _ Hext Hs).
Qed.

(** ** The wait loops, further *)

Lemma while_not_truth {A} (truth : A -> bool) cond body fuel :
  forall st x st',
    while_not truth cond body fuel st = (Ok x, st') -> truth x = true.
Proof.
  induction fuel as [|fuel IH]; intros st x st'; cbn.
  - discriminate.
  - unfold bind at 1. destruct (cond st) as [[y|e|] s1]; try discriminate.
    destruct (truth y) eqn:E.
    + unfold ret. intros H. injection H as <- _. exact E.
    + unfold bind at 1. destruct (body s1) as [[[]|e|] s2]; try discriminate.
      apply IH.
Qed.

(** X7.  A wait never returns an absent value: what [wait_for_edl] returns
    is a non-empty device path, and [wait_for_fastboot] returns [True]. *)
Theorem waits_return_present_values :
  forall env K fuel st,
    (forall v st', wait_for_edl env fuel st = (Ok v, st') ->
                   exists port, v = Some port /\ port <> "") /\
    (forall b st', wait_for_fastboot env K fuel st = (Ok b, st') -> b = true).
Proof.
  intros env K fuel st. split.
  - intros v st'. unfold wait_for_edl, bind, say at 1, emit. cbn -[check_edl_device while_not].
    assert (Hpresent : forall o, truthy_opt o = true -> exists port, o = Some port /\ port <> "").
    { intros [port|] H; [|discriminate]. exists port. split; [reflexivity|].
      now apply truthy_nonempty. }
    destruct (check_edl_device env false _) as [[found|e|] s1]; try discriminate.
    destruct (truthy_opt found) eqn:E.
    + unfold ret. intros H. injection H as <- _. now apply Hpresent.
    + destruct (while_not truthy_opt _ _ fuel s1) as [[w|e|] s2] eqn:Hloop;
        try discriminate.
      unfold say, emit, ret. cbn. intros H. injection H as <- _.
      apply Hpresent. exact (while_not_truth _ _ _ _ _ _ _ Hloop).
  - intros b st'. unfold wait_for_fastboot, bind, say at 1, emit.
    cbn -[check_fastboot_device while_not].
    destruct (check_fastboot_device env K true _) as [[found|e|] s1]; try discriminate.
    destruct found.
    + unfold say, emit, ret. cbn. intros H. now injection H as <- _.
    + destruct (while_not _ _ _ fuel s1) as [[w|e|] s2]; try discriminate.
      unfold say, emit, ret. cbn. intros H. now injection H as <- _.
Qed.

Lemma waits_return_present_values_witness :
  exists port, Some "COM7" = Some port /\ port <> "".
Proof.
  destruct (waits_return_present_values Samples.arriving Samples.tools 2 Samples.st0)
    as [Hedl _].
  apply (Hedl (Some "COM7") (snd (wait_for_edl Samples.arriving 2 Samples.st0))).
  reflexivity.
Defined.

Section Rounds.
Context {A : Type} (truth : A -> bool) (cond : M A) (body : M unit).
Variable I : nat -> State -> Prop.
Variable k : nat.
Hypothesis Hround :
  forall j st, j < k -> I j st ->
    exists x s1 s2,
      cond st = (Ok x, s1) /\ truth x = false /\ body s1 = (Ok tt, s2) /\ I (S j) s2.

(** [d] fruitless rounds of a [while not] loop, from round [j] on. *)
Lemma while_not_rounds :
  forall d j fuel st,
    j + d = k -> I j st ->
    exists st_k,
      I k st_k /\
      while_not truth cond body (d + fuel) st = while_not truth cond body fuel st_k.
Proof.
  induction d as [|d IH]; intros j fuel st Hj HI.
  - replace j with k in HI by lia. now exists st.
  - destruct (Hround j st ltac:(lia) HI) as (x & s1 & s2 & Hc & Hx & Hb & HI').
    destruct (IH (S j) fuel s2 ltac:(lia) HI') as (st_k & Hk & Hloop).
    exists st_k. split; [exact Hk|].
    cbn [Nat.add while_not]. unfold bind at 1. rewrite Hc, Hx.
    unfold bind at 1. now rewrite Hb.
Qed.

End Rounds.

Lemma check_edl_device_silent_miss env st d :
  detect_edl (comports_at env (n_comports st)) = Ok d ->
  check_edl_device env true st = (Ok d, record Comports st).
Proof.
  intros H. rewrite check_edl_device_run. unfold detect_edl, enumerated, scan_state in *.
  destruct (comports_at env (n_comports st)) as [e|ports].
  - destruct (is_Exception e); [now injection H as <- | discriminate H].
  - now injection H as <-.
Qed.

(** The rounds of the loop of [wait_for_edl] while no device shows up. *)
Lemma edl_rounds env n0 m0 k :
  (forall i, i < k ->
     exists d, detect_edl (comports_at env (n0 + i)) = Ok d /\ truthy_opt d = false) ->
  (forall i, i < k -> sleep_at env (m0 + i) = false) ->
  forall j st, j < k ->
    n_comports st = n0 + j /\ n_sleep st = m0 + j ->
    exists x s1 s2,
      check_edl_device env true st = (Ok x, s1) /\ truthy_opt x = false /\
      wait_round env "device_wait_edl_loop" "device_wait_edl_cancel" s1 = (Ok tt, s2) /\
      (n_comports s2 = n0 + S j /\ n_sleep s2 = m0 + S j).
Proof.
  intros Hmiss Hsleep j st Hj [Hc Hs].
  destruct (Hmiss j Hj) as (d & Hd & Hf). rewrite <- Hc in Hd.
  exists d, (record Comports st),
    (record (Sleep 2) (record (Say Stdout "device_wait_edl_loop") (record Comports st))).
  split; [now apply check_edl_device_silent_miss|]. split; [exact Hf|]. split.
  - apply wait_round_run. counters. rewrite Hs. now apply Hsleep.
  - counters. lia.
Qed.

(** The same for [wait_for_fastboot]. *)
Lemma fastboot_rounds env K n0 m0 k :
  (forall i, i < k ->
     detect_fastboot (child_at env (n0 + i) [str (FASTBOOT_EXE K); "devices"]) = Ok false) ->
  (forall i, i < k -> sleep_at env (m0 + i) = false) ->
  forall j st, j < k ->
    n_spawn st = n0 + j /\ n_sleep st = m0 + j ->
    exists x s1 s2,
      check_fastboot_device env K true st = (Ok x, s1) /\ x = false /\
      wait_round env "device_wait_fastboot_loop" "device_wait_fastboot_cancel" s1
        = (Ok tt, s2) /\
      (n_spawn s2 = n0 + S j /\ n_sleep s2 = m0 + S j).
Proof.
  intros Hmiss Hsleep j st Hj [Hc Hs].
  destruct (check_fastboot_device_detects env K st) as (Hr & Hc' & Hs').
  rewrite Hc, (Hmiss j Hj) in Hr.
  destruct (check_fastboot_device env K true st) as [r s1]. cbn [fst snd] in *. subst r.
  exists false, s1, (record (Sleep 2) (record (Say Stdout "device_wait_fastboot_loop") s1)).
  split; [reflexivity|]. split; [reflexivity|]. split.
  - apply wait_round_run. rewrite Hs', Hs. now apply Hsleep.
  - counters. lia.
Qed.

(** The first look of [wait_for_edl], when it finds nothing. *)
Lemma wait_for_edl_first_miss env fuel st d :
  (forall e, comports_at env (n_comports st) = inl e ->
             formatted (error_line env "device_err_check_edl"
                          "[!] Error checking for EDL device: " e) = true) ->
  detect_edl (comports_at env (n_comports st)) = Ok d ->
  truthy_opt d = false ->
  exists s1,
    n_comports s1 = S (n_comports st) /\ n_sleep s1 = n_sleep st /\
    wait_for_edl env fuel st =
      bind (while_not truthy_opt (check_edl_device env true)
              (wait_round env "device_wait_edl_loop" "device_wait_edl_cancel") fuel)
        (fun port_name => bind (say "device_edl_connected") (fun _ => ret port_name)) s1.
Proof.
  intros Hline Hd Hf.
  unfold wait_for_edl. unfold bind at 1, say at 1, emit.
  set (s0 := record (Say Stdout "device_wait_edl_title") st).
  destruct (check_edl_device_detects env false s0) as (Hr & Hc & Hs).
  { right. subst s0. counters. exact Hline. }
  subst s0. revert Hr Hc Hs. counters. intros Hr Hc Hs.
  unfold bind at 1.
  destruct (check_edl_device env false _) as [r s1]. cbn [fst snd] in *.
  rewrite Hr, Hd, Hf. now exists s1.
Qed.

(** The first look of [wait_for_fastboot], when it finds nothing. *)
Lemma wait_for_fastboot_first_miss env K fuel st :
  detect_fastboot (child_at env (n_spawn st) [str (FASTBOOT_EXE K); "devices"]) = Ok false ->
  exists s1,
    n_spawn s1 = S (n_spawn st) /\ n_sleep s1 = n_sleep st /\
    wait_for_fastboot env K fuel st =
      bind (while_not (fun b : bool => b) (check_fastboot_device env K true)
              (wait_round env "device_wait_fastboot_loop" "device_wait_fastboot_cancel")
              fuel)
        (fun _ => bind (say "device_fastboot_connected") (fun _ => ret true)) s1.
Proof.
  intros Hd.
  unfold wait_for_fastboot. unfold bind at 1, say at 1, emit.
  set (s0 := record (Say Stdout "device_wait_fastboot_title") st).
  destruct (check_fastboot_device_detects env K s0) as (Hr & Hc & Hs).
  subst s0. revert Hr Hc Hs. counters. intros Hr Hc Hs.
  unfold bind at 1.
  destruct (check_fastboot_device env K true _) as [r s1]. cbn [fst snd] in *.
  rewrite Hr, Hd. now exists s1.
Qed.

(** X8.  A device that never shows up is waited for without end: when every
    look fails and no sleep is interrupted, [wait_for_edl] and
    [wait_for_fastboot] are still waiting after any number of rounds.  The
    first look of [wait_for_edl] is not silent: an error of the first
    listing counts as a failed look when the line that reports it can be
    formatted. *)
Theorem waits_have_no_deadline :
  forall env K st,
    (forall i, sleep_at env (n_sleep st + i) = false) ->
    ((forall e, comports_at env (n_comports st) = inl e ->
                formatted (error_line env "device_err_check_edl"
                             "[!] Error checking for EDL device: " e) = true) ->
     (forall i, exists d,
        detect_edl (comports_at env (n_comports st + i)) = Ok d /\ truthy_opt d = false) ->
     forall fuel, fst (wait_for_edl env fuel st) = Diverge) /\
    ((forall i,
        detect_fastboot (child_at env (n_spawn st + i) [str (FASTBOOT_EXE K); "devices"])
          = Ok false) ->
     forall fuel, fst (wait_for_fastboot env K fuel st) = Diverge).
Proof.
  intros env K st Hsleep. split; [intros Hline Hmiss fuel | intros Hmiss fuel].
  - destruct (Hmiss 0) as (d & Hd & Hf). rewrite Nat.add_0_r in Hd.
    destruct (wait_for_edl_first_miss env fuel st d Hline Hd Hf) as (s1 & Hc & Hs & ->).
    assert (Hmiss' : forall i, i < fuel -> exists d,
               detect_edl (comports_at env (S (n_comports st) + i)) = Ok d /\
               truthy_opt d = false).
    { intros i _. replace (S (n_comports st) + i) with (n_comports st + S i) by lia.
      apply Hmiss. }
    destruct (while_not_rounds truthy_opt _ _ _ fuel
                (edl_rounds env _ _ fuel Hmiss' (fun i _ => Hsleep i))
                fuel 0 0 s1 ltac:(lia) ltac:(split; lia)) as (st_k & _ & Hloop).
    rewrite Nat.add_0_r in Hloop. unfold bind at 1. now rewrite Hloop.
  - pose proof (Hmiss 0) as Hd. rewrite Nat.add_0_r in Hd.
    destruct (wait_for_fastboot_first_miss env K fuel st Hd) as (s1 & Hc & Hs & ->).
    assert (Hmiss' : forall i, i < fuel ->
               detect_fastboot
                 (child_at env (S (n_spawn st) + i) [str (FASTBOOT_EXE K); "devices"])
               = Ok false).
    { intros i _. replace (S (n_spawn st) + i) with (n_spawn st + S i) by lia.
      apply Hmiss. }
    destruct (while_not_rounds (fun b : bool => b) _ _ _ fuel
                (fastboot_rounds env K _ _ fuel Hmiss' (fun i _ => Hsleep i))
                fuel 0 0 s1 ltac:(lia) ltac:(split; lia)) as (st_k & _ & Hloop).
    rewrite Nat.add_0_r in Hloop. unfold bind at 1. now rewrite Hloop.
Qed.

Lemma waits_have_no_deadline_witness :
  fst (wait_for_edl Samples.idle 7 Samples.st0) = Diverge /\
  fst (wait_for_fastboot Samples.idle Samples.tools 7 Samples.st0) = Diverge.
Proof.
  destruct (waits_have_no_deadline Samples.idle Samples.tools Samples.st0
              (fun _ => eq_refl)) as [Hedl Hfastboot].
  split.
  - apply Hedl; [intros e H; discriminate H|].
    intros i. exists None. split; reflexivity.
  - apply Hfastboot. intros i. reflexivity.
Defined.

(** X9.  Ctrl+C during a sleep ends the wait: after [k] full rounds, an
    interrupt of the next sleep is narrated and raised as
    [KeyboardInterrupt], and the detector is not called again.  The first
    look of [wait_for_edl] is not silent: an error of the first listing
    counts as a failed look when the line that reports it can be
    formatted. *)
Theorem waits_are_cancelled_by_interrupt :
  forall env K fuel st k,
    k < fuel ->
    (forall i, i < k -> sleep_at env (n_sleep st + i) = false) ->
    sleep_at env (n_sleep st + k) = true ->
    ((forall e, comports_at env (n_comports st) = inl e ->
                formatted (error_line env "device_err_check_edl"
                             "[!] Error checking for EDL device: " e) = true) ->
     (forall i, i < k + 2 -> exists d,
        detect_edl (comports_at env (n_comports st + i)) = Ok d /\ truthy_opt d = false) ->
     exists st',
       wait_for_edl env fuel st = (Raise KeyboardInterrupt, st') /\
       hd_error (trace st') = Some (Say Stdout "device_wait_edl_cancel") /\
       n_comports st' = n_comports st + k + 2) /\
    ((forall i, i < k + 2 ->
        detect_fastboot (child_at env (n_spawn st + i) [str (FASTBOOT_EXE K); "devices"])
          = Ok false) ->
     exists st',
       wait_for_fastboot env K fuel st = (Raise KeyboardInterrupt, st') /\
       hd_error (trace st') = Some (Say Stdout "device_wait_fastboot_cancel") /\
       n_spawn st' = n_spawn st + k + 2).
Proof.
  intros env K fuel st k Hfuel Hsleep Hint. split; [intros Hline Hmiss | intros Hmiss].
  - destruct (Hmiss 0 ltac:(lia)) as (d & Hd & Hf). rewrite Nat.add_0_r in Hd.
    destruct (wait_for_edl_first_miss env fuel st d Hline Hd Hf) as (s1 & Hc & Hs & ->).
    assert (Hmiss' : forall i, i < k -> exists d,
               detect_edl (comports_at env (S (n_comports st) + i)) = Ok d /\
               truthy_opt d = false).
    { intros i Hi. replace (S (n_comports st) + i) with (n_comports st + S i) by lia.
      apply Hmiss. lia. }
    destruct (while_not_rounds truthy_opt _ _ _ k
                (edl_rounds env _ _ k Hmiss' Hsleep)
                k 0 (fuel - k) s1 ltac:(lia) ltac:(split; lia))
      as (st_k & [Hck Hsk] & Hloop).
    replace (k + (fuel - k)) with fuel in Hloop by lia.
    unfold bind at 1. rewrite Hloop.
    destruct (fuel - k) as [|f] eqn:Ef; [lia|].
    destruct (Hmiss (S k) ltac:(lia)) as (d' & Hd' & Hf').
    replace (n_comports st + S k) with (n_comports st_k) in Hd' by lia.
    cbn [while_not]. unfold bind at 1.
    rewrite (check_edl_device_silent_miss env st_k d' Hd'), Hf'.
    unfold bind at 1, wait_round, bind, try_, say, emit, sleep, raise. cbn. counters.
    rewrite Hsk, Hint. cbn.
    eexists. split; [reflexivity|]. split; [reflexivity|]. counters. lia.
  - pose proof (Hmiss 0 ltac:(lia)) as Hd. rewrite Nat.add_0_r in Hd.
    destruct (wait_for_fastboot_first_miss env K fuel st Hd) as (s1 & Hc & Hs & ->).
    assert (Hmiss' : forall i, i < k ->
               detect_fastboot
                 (child_at env (S (n_spawn st) + i) [str (FASTBOOT_EXE K); "devices"])
               = Ok false).
    { intros i Hi. replace (S (n_spawn st) + i) with (n_spawn st + S i) by lia.
      apply Hmiss. lia. }
    destruct (while_not_rounds (fun b : bool => b) _ _ _ k
                (fastboot_rounds env K _ _ k Hmiss' Hsleep)
                k 0 (fuel - k) s1 ltac:(lia) ltac:(split; lia))
      as (st_k & [Hck Hsk] & Hloop).
    replace (k + (fuel - k)) with fuel in Hloop by lia.
    unfold bind at 1. rewrite Hloop.
    destruct (fuel - k) as [|f] eqn:Ef; [lia|].
    pose proof (Hmiss (S k) ltac:(lia)) as Hd'.
    replace (n_spawn st + S k) with (n_spawn st_k) in Hd' by lia.
    destruct (check_fastboot_device_detects env K st_k) as (Hr & Hc' & Hs').
    rewrite Hd' in Hr.
    cbn [while_not]. unfold bind at 1.
    destruct (check_fastboot_device env K true st_k) as [r s2]. cbn [fst snd] in *.
    subst r.
    unfold bind at 1, wait_round, bind, try_, say, emit, sleep, raise. cbn. counters.
    rewrite Hs', Hsk, Hint. cbn.
    eexists. split; [reflexivity|]. split; [reflexivity|]. counters. lia.
Qed.

Lemma waits_are_cancelled_by_interrupt_witness :
  let env := {|
    child_at := child_at Samples.idle;
    comports_at := comports_at Samples.idle;
    sleep_at := fun n => (0 <? n)%nat;
    exists_at := exists_at Samples.idle;
    mkdir_at := mkdir_at Samples.idle;
    input_at := input_at Samples.idle;
    on_windows := true;
    os_sep := "\";
    lang := lang Samples.idle;
    format_field := format_field Samples.idle;
    signal_repr := signal_repr Samples.idle |} in
  (exists st',
     wait_for_edl env 5 Samples.st0 = (Raise KeyboardInterrupt, st') /\
     hd_error (trace st') = Some (Say Stdout "device_wait_edl_cancel") /\
     n_comports st' = 3) /\
  (exists st',
     wait_for_fastboot env Samples.tools 5 Samples.st0 = (Raise KeyboardInterrupt, st') /\
     hd_error (trace st') = Some (Say Stdout "device_wait_fastboot_cancel") /\
     n_spawn st' = 3).
Proof.
  cbv zeta.
  match goal with
  | |- (exists st', wait_for_edl ?env _ _ = _ /\ _) /\ _ =>
      destruct (waits_are_cancelled_by_interrupt env Samples.tools 5 Samples.st0 1)
        as [Hedl Hfastboot]
  end.
  - lia.
  - intros [|i] Hi; [reflexivity | lia].
  - reflexivity.
  - split.
    + apply Hedl; [intros e H; discriminate H|].
      intros i _. exists None. split; reflexivity.
    + apply Hfastboot. intros i _. reflexivity.
Defined.

(** ** The Firehose stage *)


(** X11.  When the Sahara or the Firehose executable is absent,
    [edl_rawprogram] raises [FileNotFoundError] and starts no child. *)
Theorem edl_rawprogram_requires_tools :
  forall env K loader_path memory_type raw_xmls patch_xmls port st,
    exists_at env (n_exists st) (str (QSAHARASERVER_EXE K)) = false \/
    exists_at env (S (n_exists st)) (str (FH_LOADER_EXE K)) = false ->
    let r := edl_rawprogram env K loader_path memory_type raw_xmls patch_xmls port st in
    fst r = Raise (FileNotFoundError "Missing fh_loader/Qsaharaserver executables" None) /\
    spawned (trace (snd r)) = spawned (trace st).
Proof.
  intros env K loader_path memory_type raw_xmls patch_xmls port st Hmissing. cbv zeta.
  unfold edl_rawprogram, require_flash_tools, bind, path_exists, say, emit, raise, ret.
  destruct (exists_at env (n_exists st) (str (QSAHARASERVER_EXE K))) eqn:Hq; cbn.
  - counters. destruct Hmissing as [H|H]; [discriminate H|]. rewrite H. cbn.
    split; reflexivity.
  - split; reflexivity.
Qed.

Lemma edl_rawprogram_requires_tools_witness :
  let env := Samples.with_child (fun _ _ => Exits 0 "" "")
               {| child_at := child_at Samples.idle;
                  comports_at := comports_at Samples.idle;
                  sleep_at := sleep_at Samples.idle;
                  exists_at := fun n _ => (n =? 0)%nat;
                  mkdir_at := mkdir_at Samples.idle;
                  input_at := input_at Samples.idle;
                  on_windows := true;
                  os_sep := "\";
                  lang := lang Samples.idle;
                  format_field := format_field Samples.idle;
                  signal_repr := signal_repr Samples.idle |} in
  let r := edl_rawprogram env Samples.tools (Samples.path_of "loader.melf") "UFS"
             [] [] "COM7" Samples.st0 in
  fst r = Raise (FileNotFoundError "Missing fh_loader/Qsaharaserver executables" None) /\
  spawned (trace (snd r)) = [].
Proof.
  cbv zeta.
  match goal with
  | |- fst (edl_rawprogram ?env _ _ _ _ _ _ _) = _ /\ _ =>
      apply (edl_rawprogram_requires_tools env Samples.tools
               (Samples.path_of "loader.melf") "UFS" [] [] "COM7" Samples.st0)
  end.
  right. reflexivity.
Defined.



(** ** Which children a computation starts *)

Lemma starts_only_ret {A} Q (a : A) : starts_only Q (ret a).
Proof. intros st. exists []. split; [apply extends_refl | constructor]. Qed.

Lemma starts_only_raise {A} Q e : starts_only Q (@raise A e).
Proof. intros st. exists []. split; [apply extends_refl | constructor]. Qed.

Lemma starts_only_diverge {A} Q : starts_only Q (@diverge A).
Proof. intros st. exists []. split; [apply extends_refl | constructor]. Qed.

Lemma starts_only_emit Q e : is_spawn e = false -> starts_only Q (emit e).
Proof.
  intros He st. exists [e]. split; [unfold emit; cbn; frame|].
  destruct e; try discriminate He; constructor.
Qed.

Lemma starts_only_bind {A B} Q (m : M A) (k : A -> M B) :
  starts_only Q m -> (forall a, starts_only Q (k a)) -> starts_only Q (bind m k).
Proof.
  intros Hm Hk st. unfold bind.
  destruct (Hm st) as (n1 & H1 & Q1).
  destruct (m st) as [[a|e|] s1]; cbn [snd] in *; try (exists n1; now split).
  destruct (Hk a s1) as (n2 & H2 & Q2).
  exists (n2 ++ n1)%list. split; [exact (extends_trans _ _ _ _ _ H1 H2)|].
  rewrite spawned_app. apply Forall_app. now split.
Qed.

Lemma starts_only_try {A} Q (body : M A) catches handler :
  starts_only Q body -> (forall e, starts_only Q (handler e)) ->
  starts_only Q (try_ body catches handler).
Proof.
  intros Hb Hh st. unfold try_.
  destruct (Hb st) as (n1 & H1 & Q1).
  destruct (body st) as [[a|e|] s1]; cbn [snd] in *; try (exists n1; now split).
  destruct (catches e); [|exists n1; now split].
  destruct (Hh e s1) as (n2 & H2 & Q2).
  exists (n2 ++ n1)%list. split; [exact (extends_trans _ _ _ _ _ H1 H2)|].
  rewrite spawned_app. apply Forall_app. now split.
Qed.

Lemma starts_only_while {A} Q (truth : A -> bool) cond body fuel :
  starts_only Q cond -> starts_only Q body ->
  starts_only Q (while_not truth cond body fuel).
Proof.
  intros Hc Hb. induction fuel as [|fuel IH]; cbn.
  - apply starts_only_diverge.
  - apply starts_only_bind; [exact Hc|]. intros x.
    destruct (truth x); [apply starts_only_ret|].
    apply starts_only_bind; [exact Hb | intros _; exact IH].
Qed.

Lemma starts_only_run_command Q env command check capture :
  Q command -> starts_only Q (run_command env command check capture).
Proof.
  intros HQ st.
  destruct (run_command_frame env command check capture st) as (new & _ & Hext & _ & Hsp).
  exists new. split; [exact Hext|]. rewrite Hsp. now constructor.
Qed.

Lemma starts_only_sleep Q env secs : starts_only Q (sleep env secs).
Proof.
  intros st. unfold sleep. destruct (sleep_at env (n_sleep st)); cbn;
    eexists; (split; [frame | constructor]).
Qed.

Lemma starts_only_input Q env : starts_only Q (input env).
Proof.
  intros st. unfold input. destruct (input_at env (n_input st)); cbn;
    eexists; (split; [frame | constructor]).
Qed.

Lemma starts_only_strip_of Q o : starts_only Q (strip_of o).
Proof. destruct o; [apply starts_only_ret | apply starts_only_raise]. Qed.

Lemma starts_only_text_of Q o : starts_only Q (text_of o).
Proof. destruct o; [apply starts_only_ret | apply starts_only_raise]. Qed.

Lemma starts_only_when Q b m : starts_only Q m -> starts_only Q (when b m).
Proof. intros H. destruct b; [exact H | apply starts_only_ret]. Qed.

Lemma starts_only_say_format Q env s key default kwargs :
  starts_only Q (say_format env s key default kwargs).
Proof.
  intros st. rewrite say_format_run.
  destruct (line env key default kwargs); cbn;
    eexists; (split; [frame | constructor]).
Qed.

Lemma starts_only_say_error Q env key prefix e :
  starts_only Q (say_error env key prefix e).
Proof. apply starts_only_say_format. Qed.

(** Splits a computation into its steps. *)
Ltac children :=
  repeat first
    [ apply starts_only_ret | apply starts_only_raise | apply starts_only_diverge
    | (apply starts_only_emit; reflexivity)
    | apply starts_only_say_format | apply starts_only_say_error
    | apply starts_only_sleep | apply starts_only_input
    | apply starts_only_strip_of | apply starts_only_text_of
    | (apply starts_only_run_command; first [assumption | cbn; tauto])
    | apply starts_only_while
    | apply starts_only_when
    | apply starts_only_bind | apply starts_only_try
    | match goal with
      | |- forall _, _ => intro
      | |- starts_only _ (if ?b then _ else _) => destruct b
      | |- starts_only _ (match ?o with Some _ => _ | None => _ end) => destruct o
      end ].

Lemma check_fastboot_device_children env K silent Q :
  Q [str (FASTBOOT_EXE K); "devices"] ->
  starts_only Q (check_fastboot_device env K silent).
Proof.
  intros HQ. unfold check_fastboot_device, say, say_err.
  children.
Qed.

Lemma starts_only_comports Q env : starts_only Q (comports env).
Proof.
  intros st. unfold comports. destruct (comports_at env (n_comports st)); cbn;
    eexists; (split; [frame | constructor]).
Qed.

Lemma scan_ports_children Q silent ports : starts_only Q (scan_ports silent ports).
Proof.
  induction ports as [|p rest IH]; cbn; unfold say.
  - children.
  - destruct (is_qualcomm_port p); [children | exact IH].
Qed.

Lemma check_edl_device_children Q env silent : starts_only Q (check_edl_device env silent).
Proof.
  unfold check_edl_device, say, say_err.
  apply starts_only_bind; [children|]. intros _.
  apply starts_only_try; [|children].
  apply starts_only_bind; [apply starts_only_comports|].
  intros ports. apply scan_ports_children.
Qed.

Lemma wait_round_children Q env loop_key cancel_key :
  starts_only Q (wait_round env loop_key cancel_key).
Proof. unfold wait_round, say. children. Qed.

Lemma wait_for_fastboot_children Q env K fuel :
  Q [str (FASTBOOT_EXE K); "devices"] ->
  starts_only Q (wait_for_fastboot env K fuel).
Proof.
  intros HQ. unfold wait_for_fastboot, say.
  apply starts_only_bind; [children|]. intros _.
  apply starts_only_bind; [now apply check_fastboot_device_children|].
  intros found. destruct found; [children|].
  apply starts_only_bind; [|children].
  apply starts_only_while;
    [now apply check_fastboot_device_children | apply wait_round_children].
Qed.

(** X13.  Waiting starts nothing but the detector's own command, for any
    number of rounds: [wait_for_edl] starts no child process at all, and
    every child of [wait_for_fastboot] is [fastboot devices]. *)
Theorem waits_start_only_the_detector :
  forall env K fuel,
    starts_only (fun _ => False) (wait_for_edl env fuel) /\
    starts_only (fun argv => argv = [str (FASTBOOT_EXE K); "devices"])
      (wait_for_fastboot env K fuel).
Proof.
  intros env K fuel. split.
  - unfold wait_for_edl, say.
    apply starts_only_bind; [children|]. intros _.
    apply starts_only_bind; [apply check_edl_device_children|].
    intros found. destruct (truthy_opt found); [children|].
    apply starts_only_bind; [|children].
    apply starts_only_while; [apply check_edl_device_children | apply wait_round_children].
  - now apply wait_for_fastboot_children.
Qed.

(** X14.  With [skip_adb] set, [get_fastboot_vars] never touches ADB and
    never reboots the device: every child it starts is [fastboot devices] or
    [fastboot getvar all], whatever happens. *)
Theorem get_fastboot_vars_manual_mode :
  forall env K fuel,
    starts_only
      (fun argv => argv = [str (FASTBOOT_EXE K); "devices"] \/
                   argv = [str (FASTBOOT_EXE K); "getvar"; "all"])
      (get_fastboot_vars env K true fuel).
Proof.
  intros env K fuel.
  unfold get_fastboot_vars, enter_fastboot, read_fastboot_vars, say, say_err.
  cbn [negb].
  apply starts_only_bind.
  - apply starts_only_bind; [children|]. intros _.
    apply starts_only_bind; [children|]. intros _.
    apply starts_only_bind; [|children].
    apply wait_for_fastboot_children. now left.
  - intros _. children.
Qed.

(** X15.  Once the device is in Fastboot, [get_fastboot_vars] returns the
    captured standard output of [fastboot getvar all], a line end and its
    captured standard error, whatever the return code of that run.  With
    [skip_adb] it runs nothing more.  With ADB in use it then runs
    [fastboot reboot], and returns the text when that reboot succeeds, or
    fails with an error whose line can be formatted and which is
    swallowed. *)
Theorem get_fastboot_vars_returns_both_streams :
  forall env K skip fuel st0 st rc out err,
    let reboot := [str (FASTBOOT_EXE K); "reboot"] in
    enter_fastboot env K skip fuel st0 = (Ok tt, st) ->
    child_at env (n_spawn st) [str (FASTBOOT_EXE K); "getvar"; "all"] = Exits rc out err ->
    (forall e', child_at env (S (n_spawn st)) reboot = Throws e' ->
                is_Exception e' = true /\
                formatted (error_line env "device_err_reboot"
                             "[!] Failed to send reboot command: " e') = true) ->
    (forall rc' out' err',
       child_at env (S (n_spawn st)) reboot = Exits rc' out' err' ->
       rc' <> 0%Z ->
       formatted (error_line env "device_err_reboot"
                    "[!] Failed to send reboot command: "
                    (CalledProcessError rc' reboot None None)) = true) ->
    exists new,
      fst (get_fastboot_vars env K skip fuel st0) = Ok (out ++ String "010" "" ++ err)%string /\
      extends st (snd (get_fastboot_vars env K skip fuel st0)) new /\
      spawned new =
        if skip then [[str (FASTBOOT_EXE K); "getvar"; "all"]]
        else [reboot; [str (FASTBOOT_EXE K); "getvar"; "all"]].
Proof.
  intros env K skip fuel st0 st rc out err reboot Henter Hget Hthrows Hexits.
  unfold get_fastboot_vars, bind. rewrite Henter.
  unfold read_fastboot_vars, bind, try_, say at 1, emit.
  cbn -[run_command fastboot_reboot_system].
  rewrite (run_command_captured env _ false _ rc out err) by (counters; auto).
  unfold text_of, ret. cbn -[fastboot_reboot_system].
  destruct skip; cbn -[fastboot_reboot_system].
  - eexists. split; [reflexivity|]. split; [frame|]. reflexivity.
  - match goal with
    | |- context [fastboot_reboot_system env K ?s] =>
        destruct (fastboot_reboot_system_run env K s) as (n2 & Hok & Hext2 & Hsp2);
        destruct (fastboot_reboot_system env K s) as [r2 s2]
    end.
    cbn [fst snd] in *.
    assert (Hr2 : r2 = Ok tt).
    { rewrite Hok. unfold run_outcome, after_line. counters.
      fold reboot.
      destruct (child_at env (S (n_spawn st)) reboot) as [rc' out' err'|e'] eqn:Hc.
      - destruct (rc' =? 0)%Z eqn:Hrc; cbn; [reflexivity|].
        assert (Hne : rc' <> 0%Z) by (intros ->; discriminate Hrc).
        specialize (Hexits rc' out' err' eq_refl Hne).
        now destruct (error_line env "device_err_reboot" _ _).
      - destruct (Hthrows e' eq_refl) as [He' Hf]. rewrite He'.
        now destruct (error_line env "device_err_reboot" _ e'). }
    clear Hok. subst r2.
    eexists. split; [reflexivity|]. split; [frame|].
    cbn. rewrite spawned_app, Hsp2. reflexivity.
Qed.

Lemma get_fastboot_vars_returns_both_streams_witness :
  let env := Samples.with_child
               (fun n _ =>
                  match n with
                  | 3 => Exits 1 "" "(bootloader) current-slot:a"
                  | 4 => Exits 1 "" "no device"
                  | _ => Exits 0 "0123456789ABCDEF fastboot" ""
                  end)
               Samples.idle in
  exists new,
    fst (get_fastboot_vars env Samples.tools false 3 Samples.st0)
      = Ok (String "010" "(bootloader) current-slot:a") /\
    extends (snd (enter_fastboot env Samples.tools false 3 Samples.st0))
      (snd (get_fastboot_vars env Samples.tools false 3 Samples.st0)) new /\
    spawned new = [["fastboot.exe"; "reboot"]; ["fastboot.exe"; "getvar"; "all"]].
Proof.
  cbv zeta.
  match goal with
  | |- exists new, fst (get_fastboot_vars ?env _ _ _ _) = _ /\ _ =>
      apply (get_fastboot_vars_returns_both_streams env Samples.tools false 3 Samples.st0
               (snd (enter_fastboot env Samples.tools false 3 Samples.st0))
               1 "" "(bootloader) current-slot:a")
  end.
  - reflexivity.
  - reflexivity.
  - intros e' H. vm_compute in H. discriminate H.
  - intros rc' out' err' H _. vm_compute in H. injection H as <- _ _. reflexivity.
Defined.

(** ** Waiting for files *)

Lemma absent_none env items :
  forall n,
    absent env n items = [] <->
    (forall i, i < List.length items ->
       exists_at env (n + i) (snd (nth i items ("", ""))) = true).
Proof.
  induction items as [|[label path] rest IH]; intros n; cbn.
  - split; [intros _ i Hi; lia | reflexivity].
  - destruct (exists_at env n path) eqn:E.
    + rewrite IH. split.
      * intros H [|i] Hi; [now rewrite Nat.add_0_r|].
        replace (n + S i) with (S n + i) by lia. apply H. lia.
      * intros H i Hi. specialize (H (S i) ltac:(lia)).
        now replace (n + S i) with (S n + i) in H by lia.
    + split; [discriminate|].
      intros H. specialize (H 0 ltac:(lia)). rewrite Nat.add_0_r in H. cbn in H.
      congruence.
Qed.

Lemma probed_counts items :
  forall st,
    n_exists (probed items st) = n_exists st + List.length items /\
    n_input (probed items st) = n_input st /\
    n_mkdir (probed items st) = n_mkdir st /\
    exists new, extends st (probed items st) new /\
                forallb is_exists new = true.
Proof.
  induction items as [|[label path] rest IH]; intros st; cbn.
  - repeat split; try lia. exists []. split; [apply extends_refl | reflexivity].
  - destruct (IH (record (Exists path) st)) as (He & Hi & Hm & new & Hext & Hall).
    revert He Hi Hm. counters. intros He Hi Hm.
    repeat split; try lia.
    exists (new ++ [Exists path])%list. split.
    + eapply extends_trans; [|exact Hext]. frame.
    + rewrite forallb_app, Hall. reflexivity.
Qed.

Lemma missing_files_run env directory files :
  forall st,
    missing_files env directory files st =
    (Ok (absent env (n_exists st) (required env directory files)),
     probed (required env directory files) st).
Proof.
  induction files as [|f rest IH]; intros st; [reflexivity|].
  cbn [missing_files required map absent probed]. unfold bind, path_exists, ret.
  fold (required env directory rest). rewrite IH. counters.
  destruct (exists_at env (n_exists st) _); reflexivity.
Qed.

Lemma required_nth env directory files :
  forall i, i < List.length files ->
    snd (nth i (required env directory files) ("", ""))
      = (str directory ++ os_sep env ++ nth i files "")%string.
Proof.
  induction files as [|f rest IH]; intros i Hi; cbn in *; [lia|].
  destruct i as [|i]; [reflexivity|]. apply IH. lia.
Qed.

Lemma only_exists_prints_nothing new :
  forallb is_exists new = true ->
  printed Stdout new = [] /\ forall cmd, ~ In (System cmd) new.
Proof.
  induction new as [|e t IH]; cbn; intros H.
  - split; [reflexivity | intros cmd []].
  - apply andb_prop in H as [He Ht]. destruct (IH Ht) as [Hp Hs].
    destruct e; try discriminate He. split; [exact Hp|].
    intros cmd [Heq|Hin]; [discriminate Heq | exact (Hs cmd Hin)].
Qed.

(** X16.  When the directory can be made and every required file is there
    at the first look, [wait_for_files] returns [True] at once: each file is
    looked for exactly once, the operator is not asked for anything and
    nothing is printed. *)
Theorem wait_for_files_all_present :
  forall env directory required_files prompt_message fuel st,
    mkdir_at env (n_mkdir st) (str directory) = None ->
    (forall i, i < List.length required_files ->
       exists_at env (n_exists st + i)
         (str directory ++ os_sep env ++ nth i required_files "") = true) ->
    exists st',
      wait_for_files env directory required_files prompt_message (S fuel) st
        = (Ok true, st') /\
      n_exists st' = n_exists st + List.length required_files /\
      n_input st' = n_input st /\
      exists new, extends st st' new /\ printed Stdout new = [] /\
                  forall cmd, ~ In (System cmd) new.
Proof.
  intros env directory required_files prompt_message fuel st Hmk Hall.
  unfold wait_for_files, bind, mkdir. rewrite Hmk.
  cbn [wait_for_files_loop]. unfold bind at 1. rewrite missing_files_run.
  set (s0 := record (Mkdir (str directory)) st).
  assert (Hnone : absent env (n_exists s0) (required env directory required_files) = []).
  { apply absent_none. intros i Hi. unfold required in Hi. rewrite length_map in Hi.
    subst s0. counters. rewrite required_nth by exact Hi. now apply Hall. }
  rewrite Hnone. unfold ret.
  destruct (probed_counts (required env directory required_files) s0)
    as (He & Hi & _ & new & Hext & Hnew).
  unfold required in He. rewrite length_map in He.
  subst s0. revert He Hi Hext. counters. intros He Hi Hext.
  eexists. split; [reflexivity|]. split; [exact He|]. split; [exact Hi|].
  destruct (only_exists_prints_nothing new Hnew) as [Hp Hs].
  exists (new ++ [Mkdir (str directory)])%list. split; [|split].
  - eapply extends_trans; [|exact Hext]. frame.
  - clear -Hp. induction new as [|e t IH]; cbn in *; [reflexivity|].
    destruct e as [|[]| | | | | | | |]; cbn in *; try discriminate; now apply IH.
  - intros cmd Hin. apply in_app_or in Hin as [Hin|[Hin|[]]];
      [exact (Hs cmd Hin) | discriminate Hin].
Qed.

Lemma wait_for_files_all_present_witness :
  exists st',
    wait_for_files Samples.idle (Samples.path_of "image") ["xbl_s_devprg_ns.melf"]
      "Place the loader" 1 Samples.st0 = (Ok true, st') /\
    n_exists st' = 1 /\ n_input st' = 0 /\
    exists new, extends Samples.st0 st' new /\ printed Stdout new = [] /\
                forall cmd, ~ In (System cmd) new.
Proof.
  apply (wait_for_files_all_present Samples.idle (Samples.path_of "image")
           ["xbl_s_devprg_ns.melf"] "Place the loader" 0 Samples.st0).
  - reflexivity.
  - intros i _. reflexivity.
Defined.

Lemma print_each_run prefix l :
  forall s, exists s',
    print_each prefix l s = (Ok tt, s') /\ n_input s' = n_input s.
Proof.
  induction l as [|x l IH]; intros s; cbn.
  - now exists s.
  - unfold bind, print, emit.
    destruct (IH (record (Printed Stdout (prefix ++ x)) s)) as (s' & Hs' & Hn).
    exists s'. split; [exact Hs'|]. rewrite Hn. now counters.
Qed.

(** X17.  When a required file is missing at the first look and the
    standard input is at its end, [wait_for_files] leaves through
    [sys.exit(1)] at its first prompt. *)
Theorem wait_for_files_exits_at_end_of_input :
  forall env directory required_files prompt_message fuel st i,
    mkdir_at env (n_mkdir st) (str directory) = None ->
    i < List.length required_files ->
    exists_at env (n_exists st + i)
      (str directory ++ os_sep env ++ nth i required_files "") = false ->
    input_at env (n_input st) = None ->
    fst (wait_for_files env directory required_files prompt_message (S fuel) st)
      = Raise (SystemExit 1).
Proof.
  intros env directory required_files prompt_message fuel st i Hmk Hi Hgone Heof.
  unfold wait_for_files, bind, mkdir. rewrite Hmk.
  cbn [wait_for_files_loop]. unfold bind at 1. rewrite missing_files_run.
  set (s0 := record (Mkdir (str directory)) st).
  replace (n_exists s0) with (n_exists st) by (subst s0; now counters).
  destruct (absent env (n_exists st) (required env directory required_files))
    as [|m ms] eqn:E.
  { exfalso. pose proof (proj1 (absent_none env _ _) E i) as H.
    unfold required in H at 1. rewrite length_map in H. specialize (H Hi).
    rewrite required_nth in H by exact Hi. congruence. }
  destruct (probed_counts (required env directory required_files) s0)
    as (_ & Hin & _).
  replace (n_input s0) with (n_input st) in Hin by (subst s0; now counters).
  generalize dependent (probed (required env directory required_files) s0).
  intros s1 Hin. clear E.
  remember (m :: ms) as missing eqn:Emissing. clear Emissing.
  unfold bind at 1, emit. unfold bind at 1, print, emit. unfold bind at 1.
  unfold bind at 1. unfold bind at 1.
  match goal with
  | |- context [print_each " - " missing ?s] =>
      destruct (print_each_run " - " missing s) as (s2 & Hs2 & Hn2)
  end.
  rewrite Hs2.
  revert Hn2. counters. intros Hn2.
  unfold bind at 1. unfold bind at 1, try_, bind, input, raise.
  counters. rewrite Hn2, Hin, Heof. reflexivity.
Qed.

Lemma wait_for_files_exits_at_end_of_input_witness :
  let env := {| child_at := child_at Samples.idle;
                comports_at := comports_at Samples.idle;
                sleep_at := sleep_at Samples.idle;
                exists_at := fun _ _ => false;
                mkdir_at := mkdir_at Samples.idle;
                input_at := fun _ => None;
                on_windows := false;
                os_sep := "/";
                lang := lang Samples.idle;
                format_field := format_field Samples.idle;
                signal_repr := signal_repr Samples.idle |} in
  fst (wait_for_files env (Samples.path_of "image") ["xbl_s_devprg_ns.melf"]
         "Place the loader" 4 Samples.st0) = Raise (SystemExit 1).
Proof.
  cbv zeta.
  match goal with
  | |- fst (wait_for_files ?env _ _ _ _ _) = _ =>
      apply (wait_for_files_exits_at_end_of_input env (Samples.path_of "image")
               ["xbl_s_devprg_ns.melf"] "Place the loader" 3 Samples.st0 0)
  end.
  - reflexivity.
  - cbn. lia.
  - reflexivity.
  - reflexivity.
Defined.

(** ** The dependency check *)

Lemma missing_deps_run env deps :
  forall st,
    Dependencies.missing_deps env deps st =
    (Ok (absent env (n_exists st) (map (fun d => (fst d, str (snd d))) deps)),
     probed (map (fun d => (fst d, str (snd d))) deps) st).
Proof.
  induction deps as [|[dep path] rest IH]; intros st; [reflexivity|].
  cbn [Dependencies.missing_deps map absent probed fst snd].
  unfold bind, path_exists, ret. rewrite IH. counters.
  destruct (exists_at env (n_exists st) (str path)); reflexivity.
Qed.

Lemma report_missing_run missing :
  forall st, exists st',
    Dependencies.report_missing missing st = (Ok tt, st') /\ n_exists st' = n_exists st.
Proof.
  induction missing as [|dep rest IH]; intros st; cbn.
  - now exists st.
  - unfold bind, print, emit.
    destruct (IH (record (Printed Stdout ("[!] Error: Dependency '" ++ dep ++ "' is missing.")) st))
      as (st' & Hrun & Hn).
    exists st'. split; [exact Hrun|]. rewrite Hn. now counters.
Qed.

(** X18.  On Windows, Linux and macOS [check_dependencies] looks for all
    nine dependencies, also after one was found missing; it returns when all
    are there and leaves through [sys.exit(1)] when any is missing.  On any
    other system it raises [RuntimeError] before looking for anything. *)
Theorem check_dependencies_outcome :
  forall env K system st,
    let r := Dependencies.check_dependencies env K system st in
    match Dependencies.lookup system
            [("Windows", "fetch.exe"); ("Linux", "fetch-linux"); ("Darwin", "fetch-macos")]
    with
    | Some exe =>
        let paths :=
          [str (Dependencies.PYTHON_EXE K); str (Dependencies.ADB_EXE K);
           str (Dependencies.FASTBOOT_EXE K); str (Dependencies.KEY_RSA4096 K);
           str (Dependencies.KEY_RSA2048 K); str (Dependencies.AVBTOOL_PY K);
           (str (Dependencies.DOWNLOAD_DIR K) ++ os_sep env ++ exe)%string;
           str (Dependencies.EDL_NG_EXE K); str (Dependencies.LIBUSB_DLL K)] in
        n_exists (snd r) = n_exists st + 9 /\
        ((forall i, i < 9 -> exists_at env (n_exists st + i) (nth i paths "") = true) ->
         fst r = Ok tt) /\
        (forall i, i < 9 -> exists_at env (n_exists st + i) (nth i paths "") = false ->
         fst r = Raise (SystemExit 1))
    | None =>
        fst r = Raise (PyError "RuntimeError" ("Unsupported operating system: " ++ system)) /\
        n_exists (snd r) = n_exists st
    end.
Proof.
  intros env K system st. cbv zeta.
  assert (Hrest : forall exe,
    let fetch := {| str := (str (Dependencies.DOWNLOAD_DIR K) ++ os_sep env ++ exe)%string;
                    parent := str (Dependencies.DOWNLOAD_DIR K); name := exe |} in
    let paths :=
      [str (Dependencies.PYTHON_EXE K); str (Dependencies.ADB_EXE K);
       str (Dependencies.FASTBOOT_EXE K); str (Dependencies.KEY_RSA4096 K);
       str (Dependencies.KEY_RSA2048 K); str (Dependencies.AVBTOOL_PY K);
       (str (Dependencies.DOWNLOAD_DIR K) ++ os_sep env ++ exe)%string;
       str (Dependencies.EDL_NG_EXE K); str (Dependencies.LIBUSB_DLL K)] in
    forall s0, n_exists s0 = n_exists st ->
    let r := bind (Dependencies.missing_deps env (Dependencies.dependencies K fetch))
               (fun missing =>
                  match missing with
                  | [] => print Stdout ("[+] All dependencies are present." ++ String "010" "")
                  | _ =>
                      bind (Dependencies.report_missing missing) (fun _ =>
                      bind (print Stdout
                              "Please run one of the main scripts (e.g., root.bat) to install all required files.")
                        (fun _ => raise (SystemExit 1)))
                  end) s0 in
    n_exists (snd r) = n_exists st + 9 /\
    ((forall i, i < 9 -> exists_at env (n_exists st + i) (nth i paths "") = true) ->
     fst r = Ok tt) /\
    (forall i, i < 9 -> exists_at env (n_exists st + i) (nth i paths "") = false ->
     fst r = Raise (SystemExit 1))).
  { intros exe fetch paths s0 Hs0 r.
    set (items := map (fun d => (fst d, str (snd d))) (Dependencies.dependencies K fetch)).
    destruct (probed_counts items s0) as (He & _).
    change (List.length items) with 9 in He. rewrite Hs0 in He.
    pose proof (absent_none env items (n_exists st)) as Hnone.
    change (List.length items) with 9 in Hnone.
    assert (Hnth : forall i, i < 9 -> snd (nth i items ("", "")) = nth i paths "").
    { intros i Hi. do 9 (destruct i as [|i]; [reflexivity|]). lia. }
    assert (Hr : r =
      match absent env (n_exists st) items with
      | [] => (Ok tt, record (Printed Stdout
                                ("[+] All dependencies are present." ++ String "010" ""))
                        (probed items s0))
      | m :: ms =>
          (Raise (SystemExit 1),
           record (Printed Stdout
                     "Please run one of the main scripts (e.g., root.bat) to install all required files.")
             (snd (Dependencies.report_missing (m :: ms) (probed items s0))))
      end).
    { subst r. unfold bind at 1. rewrite missing_deps_run. fold items. rewrite Hs0.
      destruct (absent env (n_exists st) items) as [|m ms]; [reflexivity|].
      destruct (report_missing_run (m :: ms) (probed items s0)) as (s1 & Hrun & _).
      unfold bind at 1. rewrite Hrun. reflexivity. }
    rewrite Hr. clear Hr r.
    destruct (absent env (n_exists st) items) as [|m ms] eqn:E; cbn [fst snd].
    - counters. split; [exact He|]. split; [reflexivity|].
      intros i Hi Hfalse. rewrite <- Hnth in Hfalse by exact Hi.
      rewrite (proj1 Hnone eq_refl i Hi) in Hfalse. discriminate Hfalse.
    - destruct (report_missing_run (m :: ms) (probed items s0)) as (s1 & Hrun & Hn).
      rewrite Hrun. cbn [snd]. counters. split; [now rewrite Hn|]. split; [|reflexivity].
      intros Hall. assert (Hnil : m :: ms = []); [|discriminate Hnil].
      apply Hnone. intros i Hi. rewrite Hnth by exact Hi. now apply Hall. }
  unfold Dependencies.check_dependencies, Dependencies.get_platform_executable.
  unfold bind at 1, print at 1, emit. cbn [Dependencies.lookup].
  unfold bind at 1.
  destruct (system =? "Windows")%string;
    [|destruct (system =? "Linux")%string; [|destruct (system =? "Darwin")%string]];
    cbn [truthy String.eqb negb Ascii.eqb Bool.eqb append];
    try (unfold ret; apply Hrest; now counters).
  unfold raise. cbn [fst snd]. split; [reflexivity | now counters].
Qed.

(** ** The runner of [main.py] *)

(** X19.  The [run_command] of [main.py] always captures: when the child
    has run and its return code passes the check, the stripped standard
    output is printed on the standard output and the stripped standard error
    on the standard error, each only when not empty, nothing reaches the
    console from the child itself, and the result carries both texts. *)
Theorem main_run_command_echoes :
  forall env command check st rc out err,
    child_at env (n_spawn st) command = Exits rc out err ->
    check && negb (rc =? 0)%Z = false ->
    exists new,
      Main.run_command env command check st =
        (Ok {| args := command; returncode := rc;
               Utils.stdout := Some out; Utils.stderr := Some err |},
         {| trace := (new ++ trace st)%list; edl_port := edl_port st |}) /\
      new = ((if truthy err then [Printed Stderr (strip err)] else []) ++
             (if truthy out then [Printed Stdout (strip out)] else []) ++
             [Spawn command check true])%list.
Proof.
  intros env command check st rc out err Hchild Hcheck.
  unfold Main.run_command, subprocess_run, try_, bind, echo_stripped, when, print, emit, ret.
  rewrite Hchild, Hcheck. cbn -[strip].
  exists ((if truthy err then [Printed Stderr (strip err)] else []) ++
          (if truthy out then [Printed Stdout (strip out)] else []) ++
          [Spawn command check true])%list.
  split; [|reflexivity].
  destruct (truthy out), (truthy err); reflexivity.
Qed.

Lemma main_run_command_echoes_witness :
  exists new,
    Main.run_command Samples.chatty ["python.exe"; "avbtool.py"] true Samples.st0 =
      (Ok {| args := ["python.exe"; "avbtool.py"]; returncode := 0;
             Utils.stdout := Some ("ok  " ++ String "010" (String "010" ""))%string;
             Utils.stderr := Some "" |},
       {| trace := (new ++ [])%list; edl_port := None |}) /\
    new = [Printed Stdout "ok"; Spawn ["python.exe"; "avbtool.py"] true true].
Proof.
  destruct (main_run_command_echoes Samples.chatty ["python.exe"; "avbtool.py"] true
              Samples.st0 0 ("ok  " ++ String "010" (String "010" ""))%string ""
              eq_refl eq_refl) as (new & Hrun & Hnew).
  exists new. split; [exact Hrun | exact Hnew].
Defined.

(** ** The byte patcher of [tools/edit_vndrboot.py] *)

Module PatchFacts.
Import EditVndrboot.

Lemma eqb_refl x : Byte.eqb x x = true.
Proof. now apply Byte.byte_dec_lb. Qed.

Lemma starts_with_self p t : starts_with p (p ++ t) = true.
Proof. induction p as [|a p IH]; cbn; [reflexivity|]. now rewrite eqb_refl. Qed.

Lemma starts_with_split p :
  forall s, starts_with p s = true -> exists t, s = (p ++ t)%list.
Proof.
  induction p as [|a p IH]; intros s H; cbn in *.
  - now exists s.
  - destruct s as [|b s]; [discriminate|].
    apply andb_prop in H as [Hab Hs].
    apply Byte.byte_dec_bl in Hab. subst b.
    destruct (IH s Hs) as (t & ->). now exists t.
Qed.

Lemma replace_from_passes p r l :
  forall t, replace_from (List.length l) p r (l ++ t) = replace_from 0 p r t.
Proof. induction l as [|a l IH]; intros t; cbn; [reflexivity | apply IH]. Qed.

Lemma count_from_passes p l :
  forall t, count_from (List.length l) p (l ++ t) = count_from 0 p t.
Proof. induction l as [|a l IH]; intros t; cbn; [reflexivity | apply IH]. Qed.

Lemma replace_match p r t :
  p <> [] -> replace p r (p ++ t) = (r ++ replace p r t)%list.
Proof.
  intros Hp. unfold replace. destruct p as [|a p']; [congruence|].
  cbn [app replace_from].
  rewrite (starts_with_self (a :: p') t : starts_with (a :: p') (a :: (p' ++ t)) = true).
  replace (List.length (a :: p') - 1) with (List.length p') by (cbn; lia).
  now rewrite replace_from_passes.
Qed.

Lemma count_match p t : p <> [] -> count p (p ++ t) = S (count p t).
Proof.
  intros Hp. unfold count. destruct p as [|a p']; [congruence|].
  cbn [app count_from].
  rewrite (starts_with_self (a :: p') t : starts_with (a :: p') (a :: (p' ++ t)) = true).
  replace (List.length (a :: p') - 1) with (List.length p') by (cbn; lia).
  now rewrite count_from_passes.
Qed.

Lemma replace_miss p r b t :
  starts_with p (b :: t) = false -> replace p r (b :: t) = b :: replace p r t.
Proof. intros H. unfold replace. cbn [replace_from]. now rewrite H. Qed.

Lemma count_miss p b t :
  starts_with p (b :: t) = false -> count p (b :: t) = count p t.
Proof. intros H. unfold count. cbn [count_from]. now rewrite H. Qed.

(** Induction along the way [replace] and [count] read their argument. *)
Lemma pattern_ind p (P : bytes -> Prop) :
  p <> [] ->
  P [] ->
  (forall t, P t -> P (p ++ t)%list) ->
  (forall b t, starts_with p (b :: t) = false -> P t -> P (b :: t)) ->
  forall s, P s.
Proof.
  intros Hp Hnil Hmatch Hmiss s.
  assert (H : forall n s, List.length s <= n -> P s).
  { clear s. induction n as [|n IH]; intros s Hn.
    - destruct s; [exact Hnil | cbn in Hn; lia].
    - destruct s as [|b t]; [exact Hnil|].
      destruct (starts_with p (b :: t)) eqn:E.
      + destruct (starts_with_split p _ E) as (t' & Heq). rewrite Heq.
        apply Hmatch, IH.
        assert (Hl : List.length (b :: t) = List.length p + List.length t')
          by now rewrite Heq, length_app.
        destruct p; [congruence|]. cbn in *. lia.
      + apply Hmiss; [exact E|]. apply IH. cbn in Hn. lia. }
  exact (H (List.length s) s (le_n _)).
Qed.

Lemma replace_length p r :
  p <> [] -> List.length r = List.length p ->
  forall s, List.length (replace p r s) = List.length s.
Proof.
  intros Hp Hlen. apply (pattern_ind p _ Hp).
  - reflexivity.
  - intros t IH. now rewrite replace_match, !length_app, IH, Hlen.
  - intros b t Hmiss IH. rewrite replace_miss by exact Hmiss. cbn. now rewrite IH.
Qed.

Lemma occurs_tail q b t : occurs q (b :: t) = false -> occurs q t = false.
Proof. cbn. intros H. now apply orb_false_elim in H as [_ H]. Qed.

Lemma occurs_after q l : forall t, occurs q (l ++ t) = false -> occurs q t = false.
Proof.
  induction l as [|a l IH]; intros t H; [exact H|].
  apply IH. exact (occurs_tail q a _ H).
Qed.

Lemma occurs_match p t : p <> [] -> occurs p (p ++ t) = true.
Proof.
  intros Hp. destruct p as [|a p']; [congruence|].
  cbn [app occurs].
  now rewrite (starts_with_self (a :: p') t : starts_with (a :: p') (a :: (p' ++ t)) = true).
Qed.

Lemma count_none p : p <> [] -> forall s, occurs p s = false -> count p s = 0.
Proof.
  intros Hp. apply (pattern_ind p (fun s => occurs p s = false -> count p s = 0) Hp).
  - reflexivity.
  - intros t _ H. rewrite occurs_match in H by exact Hp. discriminate H.
  - intros b t Hmiss IH H. rewrite count_miss by exact Hmiss.
    apply IH. exact (occurs_tail p b t H).
Qed.

Lemma count_some p : p <> [] -> forall s, count p s = 0 -> occurs p s = false.
Proof.
  intros Hp. apply (pattern_ind p (fun s => count p s = 0 -> occurs p s = false) Hp).
  - intros _. destruct p; [congruence | reflexivity].
  - intros t _ H. rewrite count_match in H by exact Hp. discriminate H.
  - intros b t Hmiss IH H. rewrite count_miss in H by exact Hmiss.
    cbn [occurs]. now rewrite Hmiss, (IH H).
Qed.

Lemma replace_none p r : p <> [] -> forall s, occurs p s = false -> replace p r s = s.
Proof.
  intros Hp. apply (pattern_ind p (fun s => occurs p s = false -> replace p r s = s) Hp).
  - reflexivity.
  - intros t _ H. rewrite occurs_match in H by exact Hp. discriminate H.
  - intros b t Hmiss IH H. rewrite replace_miss by exact Hmiss.
    now rewrite (IH (occurs_tail p b t H)).
Qed.

(** A prefix that does not hold the first byte of the pattern is neither
    made nor lost by a replacement that keeps that first byte. *)
Lemma starts_with_reflected h pt rt :
  forall s q,
    free_of h q = true ->
    starts_with q (replace (h :: pt) (h :: rt) s) = starts_with q s.
Proof.
  apply (pattern_ind (h :: pt)
           (fun s => forall q, free_of h q = true ->
              starts_with q (replace (h :: pt) (h :: rt) s) = starts_with q s));
    [discriminate | | |].
  - reflexivity.
  - intros t IH q Hq. rewrite replace_match by discriminate.
    destruct q as [|x q]; [reflexivity|].
    cbn in Hq. apply andb_prop in Hq as [Hx _].
    cbn. destruct (Byte.eqb x h); [discriminate Hx | reflexivity].
  - intros b t Hmiss IH q Hq. rewrite replace_miss by exact Hmiss.
    destruct q as [|x q]; [reflexivity|].
    cbn in Hq. apply andb_prop in Hq as [_ Hq].
    cbn. now rewrite (IH q Hq).
Qed.

(** After the replacement nothing of the pattern is left. *)
Lemma replace_leaves_none h pt rt :
  free_of h pt = true ->
  (forall X, occurs (h :: pt) ((h :: rt) ++ X) = occurs (h :: pt) X) ->
  forall s, occurs (h :: pt) (replace (h :: pt) (h :: rt) s) = false.
Proof.
  intros Hpt Hin.
  apply (pattern_ind (h :: pt)); [discriminate | | |].
  - reflexivity.
  - intros t IH. rewrite replace_match by discriminate. now rewrite Hin.
  - intros b t Hmiss IH. rewrite replace_miss by exact Hmiss.
    cbn [occurs]. rewrite IH, orb_false_r.
    cbn [starts_with] in *. now rewrite (starts_with_reflected h pt rt t pt Hpt).
Qed.

(** The replacement neither makes nor removes an occurrence of another
    pattern that it cannot touch. *)
Lemma replace_keeps_other h pt rt g qt :
  free_of h qt = true ->
  (forall X, occurs (g :: qt) ((h :: pt) ++ X) = occurs (g :: qt) X) ->
  (forall X, occurs (g :: qt) ((h :: rt) ++ X) = occurs (g :: qt) X) ->
  forall s, occurs (g :: qt) (replace (h :: pt) (h :: rt) s) = occurs (g :: qt) s.
Proof.
  intros Hqt Hp Hr.
  apply (pattern_ind (h :: pt)); [discriminate | | |].
  - reflexivity.
  - intros t IH. rewrite replace_match by discriminate. now rewrite Hr, Hp.
  - intros b t Hmiss IH. rewrite replace_miss by exact Hmiss.
    cbn [occurs]. rewrite IH. f_equal.
    cbn [starts_with]. now rewrite (starts_with_reflected h pt rt t qt Hqt).
Qed.

Lemma positive_count p s : p <> [] -> (0 <? count p s)%nat = occurs p s.
Proof.
  intros Hp. destruct (occurs p s) eqn:E.
  - destruct (count p s) eqn:C; [|reflexivity].
    rewrite (count_some p Hp s C) in E. discriminate E.
  - now rewrite (count_none p Hp s E).
Qed.

(** What the loop of the script comes to. *)
Lemma patch_run content :
  exists out,
    patch patterns_to_find content 0 =
      (patched content,
       count dot_ROW content + count I_ROW (replace dot_ROW dot_PRC content),
       out) /\
    (out = [] <-> occurs dot_ROW content || occurs I_ROW content = false).
Proof.
  assert (Hkeep : forall s, occurs I_ROW (replace dot_ROW dot_PRC s) = occurs I_ROW s).
  { apply replace_keeps_other; [reflexivity | intros X; reflexivity | intros X; reflexivity]. }
  assert (H1 : dot_ROW <> []) by discriminate.
  assert (H2 : I_ROW <> []) by discriminate.
  unfold patched, patterns_to_find. cbn [patch].
  rewrite (positive_count dot_ROW content H1).
  destruct (occurs dot_ROW content) eqn:E1.
  - rewrite (positive_count I_ROW _ H2), Hkeep.
    destruct (occurs I_ROW content) eqn:E2.
    + eexists. split; [reflexivity|]. split; discriminate.
    + assert (E2' : occurs I_ROW (replace dot_ROW dot_PRC content) = false)
        by now rewrite Hkeep.
      rewrite (replace_none I_ROW I_PRC H2 _ E2'), (count_none I_ROW H2 _ E2').
      eexists. split; [now rewrite Nat.add_0_r|]. split; discriminate.
  - rewrite (replace_none dot_ROW dot_PRC H1 content E1), (count_none dot_ROW H1 content E1).
    rewrite (positive_count I_ROW content H2).
    destruct (occurs I_ROW content) eqn:E2.
    + eexists. split; [reflexivity|]. split; discriminate.
    + rewrite (replace_none I_ROW I_PRC H2 content E2), (count_none I_ROW H2 content E2).
      eexists. split; [reflexivity|]. split; reflexivity.
Qed.

Lemma patched_has_no_target content :
  occurs dot_ROW (patched content) = false /\ occurs I_ROW (patched content) = false.
Proof.
  unfold patched. split.
  - rewrite (replace_keeps_other Byte.x49 [Byte.x52; Byte.x4f; Byte.x57]
               [Byte.x50; Byte.x52; Byte.x43] Byte.x2e [Byte.x52; Byte.x4f; Byte.x57])
      by (reflexivity || (intros X; reflexivity)).
    apply (replace_leaves_none Byte.x2e [Byte.x52; Byte.x4f; Byte.x57]
             [Byte.x50; Byte.x52; Byte.x43]); [reflexivity | intros X; reflexivity].
  - apply (replace_leaves_none Byte.x49 [Byte.x52; Byte.x4f; Byte.x57]
             [Byte.x50; Byte.x52; Byte.x43]); [reflexivity | intros X; reflexivity].
Qed.

Lemma patched_length content : List.length (patched content) = List.length content.
Proof.
  unfold patched. now rewrite !replace_length by (discriminate || reflexivity).
Qed.

End PatchFacts.

Import EditVndrboot.

Example patch_of_a_sample :
  patch patterns_to_find
    [Byte.x41; Byte.x2e; Byte.x52; Byte.x4f; Byte.x57;
     Byte.x49; Byte.x52; Byte.x4f; Byte.x57; Byte.x2e] 0
  = ([Byte.x41; Byte.x2e; Byte.x50; Byte.x52; Byte.x43;
      Byte.x49; Byte.x50; Byte.x52; Byte.x43; Byte.x2e],
     2, [Found dot_ROW 1; Found I_ROW 1]).
Proof. reflexivity. Qed.

(** X20.  The patch keeps the size of the image: whatever the content, the
    bytes the loop of [edit_vndrboot.py] ends with are as many as it was
    given. *)
Theorem edit_vndrboot_keeps_size :
  forall content,
    List.length (fst (fst (patch patterns_to_find content 0))) = List.length content.
Proof.
  intros content. destruct (PatchFacts.patch_run content) as (out & -> & _).
  apply PatchFacts.patched_length.
Qed.

(** X21.  The patch is complete and idempotent: in what it produces neither
    ".ROW" nor "IROW" is left, so a second run counts nothing, replaces
    nothing and prints no "Found" line. *)
Theorem edit_vndrboot_is_idempotent :
  forall content,
    let modified := fst (fst (patch patterns_to_find content 0)) in
    count dot_ROW modified = 0 /\
    count I_ROW modified = 0 /\
    patch patterns_to_find modified 0 = (modified, 0, []).
Proof.
  intros content. cbv zeta.
  destruct (PatchFacts.patch_run content) as (out & -> & _). cbn [fst].
  destruct (PatchFacts.patched_has_no_target content) as [H1 H2].
  assert (C1 : count dot_ROW (patched content) = 0)
    by (apply PatchFacts.count_none; [discriminate | exact H1]).
  assert (C2 : count I_ROW (patched content) = 0)
    by (apply PatchFacts.count_none; [discriminate | exact H2]).
  split; [exact C1|]. split; [exact C2|].
  unfold patterns_to_find. cbn [patch]. now rewrite C1, C2.
Qed.

(** X22.  Given a readable input file, [main] hands the output file to
    [write_bytes] exactly when the input holds ".ROW" or "IROW", and what it
    hands over is the patched content, returning when the write succeeds;
    otherwise it says that no pattern was found, writes nothing and
    returns. *)
Theorem edit_vndrboot_writes_when_found :
  forall script file fs content,
    input_exists fs = true ->
    read_bytes fs = inr content ->
    let run := main [script; file] fs in
    if occurs dot_ROW content || occurs I_ROW content
    then
      written run = Some (fst (fst (patch patterns_to_find content 0))) /\
      (write_bytes fs (fst (fst (patch patterns_to_find content 0))) = None ->
       ended run = Returned)
    else
      written run = None /\ ended run = Returned /\ stdout run = [NoPatterns].
Proof.
  intros script file fs content Hexists Hread. cbv zeta.
  unfold main. cbn [List.length Nat.eqb negb]. rewrite Hexists, Hread. cbn [negb].
  destruct (PatchFacts.patch_run content) as (out & -> & Hout). cbn [fst].
  assert (Hkeep : occurs I_ROW (replace dot_ROW dot_PRC content) = occurs I_ROW content).
  { apply PatchFacts.replace_keeps_other;
      [reflexivity | intros X; reflexivity | intros X; reflexivity]. }
  assert (Hfound :
    (0 <? count dot_ROW content + count I_ROW (replace dot_ROW dot_PRC content))%nat
    = occurs dot_ROW content || occurs I_ROW content).
  { rewrite <- Hkeep.
    rewrite <- (PatchFacts.positive_count dot_ROW content) by discriminate.
    rewrite <- (PatchFacts.positive_count I_ROW (replace dot_ROW dot_PRC content))
      by discriminate.
    destruct (count dot_ROW content), (count I_ROW (replace dot_ROW dot_PRC content));
      reflexivity. }
  rewrite Hfound.
  destruct (occurs dot_ROW content || occurs I_ROW content) eqn:E.
  - destruct (write_bytes fs (patched content)) as [e|].
    + unfold on_exception. split; [|discriminate].
      destruct (is_IOError e); [reflexivity|]. destruct (is_Exception e); reflexivity.
    + split; reflexivity.
  - rewrite (proj2 Hout eq_refl). repeat split.
Qed.

Lemma edit_vndrboot_writes_when_found_witness :
  let fs := {| input_exists := true;
               read_bytes := inr [Byte.x2e; Byte.x52; Byte.x4f; Byte.x57];
               write_bytes := fun _ => None |} in
  written (main ["edit_vndrboot.py"; "vendor_boot.img"] fs)
    = Some [Byte.x2e; Byte.x50; Byte.x52; Byte.x43] /\
  ended (main ["edit_vndrboot.py"; "vendor_boot.img"] fs) = Returned.
Proof.
  cbv zeta.
  destruct (edit_vndrboot_writes_when_found "edit_vndrboot.py" "vendor_boot.img"
              {| input_exists := true;
                 read_bytes := inr [Byte.x2e; Byte.x52; Byte.x4f; Byte.x57];
                 write_bytes := fun _ => None |}
              [Byte.x2e; Byte.x52; Byte.x4f; Byte.x57] eq_refl eq_refl) as [Hw He].
  split; [exact Hw | exact (He eq_refl)].
Defined.

(** ** Rebooting through ADB *)

(** X23.  When ADB finds the device and [adb reboot bootloader] fails with
    an error, [get_fastboot_vars] stops at once: Fastboot is never asked
    anything, the only children are the two ADB commands.  What it raises
    is that error when the line printed for it can be formatted, and the
    exception of [str.format] when it cannot. *)
Theorem get_fastboot_vars_stops_at_failed_reboot :
  forall env K fuel st st1 e,
    wait_for_adb env K false st = (Ok tt, st1) ->
    run_outcome env [str (Device.ADB_EXE K); "reboot"; "bootloader"] true false st1 = Raise e ->
    is_Exception e = true ->
    exists new,
      fst (get_fastboot_vars env K false fuel st) =
        match error_line env "device_err_reboot"
                "[!] Failed to send reboot command: " e with
        | inr _ => Raise e
        | inl x => Raise x
        end /\
      extends st (snd (get_fastboot_vars env K false fuel st)) new /\
      spawned new = [[str (Device.ADB_EXE K); "reboot"; "bootloader"];
                     [str (Device.ADB_EXE K); "wait-for-device"]].
Proof.
  intros env K fuel st st1 e Hwait Hrun He.
  destruct (wait_for_adb_runs_one_child env K (record (Say Stdout "device_rebooting_fastboot")
              (record (Say Stdout "device_rollback_header") st)))
    as (n0 & Hext0 & Hsp0 & _).
  assert (Hwait' : wait_for_adb env K false
                     (record (Say Stdout "device_rebooting_fastboot")
                        (record (Say Stdout "device_rollback_header") st))
                   = (Ok tt, snd (wait_for_adb env K false
                        (record (Say Stdout "device_rebooting_fastboot")
                           (record (Say Stdout "device_rollback_header") st)))) /\
                   n_spawn (snd (wait_for_adb env K false
                        (record (Say Stdout "device_rebooting_fastboot")
                           (record (Say Stdout "device_rollback_header") st))))
                   = n_spawn st1).
  { pose proof (wait_for_adb_runs_one_child env K st) as (m0 & Hm0 & Hms0 & Hres0).
    pose proof (wait_for_adb_runs_one_child env K
                  (record (Say Stdout "device_rebooting_fastboot")
                     (record (Say Stdout "device_rollback_header") st)))
      as (m1 & Hm1 & Hms1 & Hres1).
    rewrite !run_outcome_record in Hres1 by reflexivity.
    rewrite Hwait in Hres0, Hm0. cbn [fst snd] in Hres0, Hm0.
    rewrite <- Hres0 in Hres1.
    rewrite (extends_n_spawn _ _ _ Hm0), (extends_n_spawn _ _ _ Hm1), Hms0, Hms1.
    counters. split; [|reflexivity].
    destruct (wait_for_adb env K false (record _ _)) as [r s]. cbn [fst snd] in *.
    now subst r. }
  destruct Hwait' as [Hwait' Hn].
  set (s1 := snd (wait_for_adb env K false _)) in *.
  destruct (run_command_frame env [str (Device.ADB_EXE K); "reboot"; "bootloader"] true false
              (record (Say Stdout "device_reboot_fastboot_adb") s1))
    as (new & Hr & Hext & _ & Hsp).
  rewrite run_outcome_record in Hr by reflexivity.
  assert (Hr' : run_outcome env [str (Device.ADB_EXE K); "reboot"; "bootloader"] true false s1
                = Raise e).
  { unfold run_outcome in *. now rewrite Hn. }
  rewrite Hr' in Hr. clear Hr'.
  set (s2 := snd (run_command env [str (Device.ADB_EXE K); "reboot"; "bootloader"]
                    true false (record (Say Stdout "device_reboot_fastboot_adb") s1))) in *.
  assert (Hwhole : get_fastboot_vars env K false fuel st =
                   match error_line env "device_err_reboot"
                           "[!] Failed to send reboot command: " e with
                   | inr _ => (Raise e, record (Say Stderr "device_err_reboot") s2)
                   | inl x => (Raise x, s2)
                   end).
  { unfold get_fastboot_vars, enter_fastboot, reboot_to_bootloader, bind.
    unfold say at 1, emit. cbn [negb]. unfold say at 1, emit.
    rewrite Hwait'.
    unfold say at 1, emit, try_, bind, raise.
    subst s2.
    destruct (run_command env _ true false
                (record (Say Stdout "device_reboot_fastboot_adb") s1)) as [r s].
    cbn [fst snd] in *. subst r. rewrite He, say_error_run.
    now destruct (error_line env "device_err_reboot" _ e). }
  rewrite Hwhole.
  destruct (error_line env "device_err_reboot" _ e); cbn [fst snd];
    eexists; (split; [reflexivity|]); (split; [frame|]);
    cbn; rewrite ?spawned_app, Hsp; cbn; rewrite spawned_app, Hsp0; reflexivity.
Qed.

Lemma get_fastboot_vars_stops_at_failed_reboot_witness :
  (exists new,
     fst (get_fastboot_vars Samples.refusing Samples.tools false 3 Samples.st0)
       = Raise (CalledProcessError 1 ["adb.exe"; "reboot"; "bootloader"] None None) /\
     extends Samples.st0
       (snd (get_fastboot_vars Samples.refusing Samples.tools false 3 Samples.st0)) new /\
     spawned new = [["adb.exe"; "reboot"; "bootloader"]; ["adb.exe"; "wait-for-device"]]) /\
  (exists new,
     fst (get_fastboot_vars Samples.refusing_braced Samples.tools false 3 Samples.st0)
       = Raise (PyError "KeyError" "'port'") /\
     extends Samples.st0
       (snd (get_fastboot_vars Samples.refusing_braced Samples.tools false 3 Samples.st0))
       new /\
     spawned new = [["adb.exe"; "reboot"; "bootloader"]; ["adb.exe"; "wait-for-device"]]).
Proof.
  split.
  - apply (get_fastboot_vars_stops_at_failed_reboot Samples.refusing Samples.tools 3
             Samples.st0
             (snd (wait_for_adb Samples.refusing Samples.tools false Samples.st0))
             (CalledProcessError 1 ["adb.exe"; "reboot"; "bootloader"] None None));
      reflexivity.
  - apply (get_fastboot_vars_stops_at_failed_reboot Samples.refusing_braced Samples.tools 3
             Samples.st0
             (snd (wait_for_adb Samples.refusing_braced Samples.tools false Samples.st0))
             (PyError "OSError" "could not open {port}"));
      reflexivity.
Defined.


(** With ADB in use and the device answering, [wait_for_adb] returns after
    exactly one child. *)
Lemma wait_for_adb_found env K st out err :
  child_at env (n_spawn st) [str (Device.ADB_EXE K); "wait-for-device"] = Exits 0 out err ->
  exists st',
    wait_for_adb env K false st = (Ok tt, st') /\
    n_spawn st' = S (n_spawn st) /\
    n_comports st' = n_comports st /\
    spawned (trace st') = [str (Device.ADB_EXE K); "wait-for-device"] :: spawned (trace st).
Proof.
  intros H.
  unfold wait_for_adb, bind, try_, say, emit. cbn -[run_command].
  rewrite (run_command_uncaptured env _ true _ 0 out err) by (counters; auto).
  cbn. eexists. split; [reflexivity|]. counters.
  split; [reflexivity|]. split; reflexivity.
Qed.

(** With ADB in use and both commands succeeding, [reboot_to_edl] runs the
    wait and then the reboot, and nothing else. *)
Lemma reboot_to_edl_found env K st out1 err1 out2 err2 :
  child_at env (n_spawn st) [str (Device.ADB_EXE K); "wait-for-device"] = Exits 0 out1 err1 ->
  child_at env (S (n_spawn st)) [str (Device.ADB_EXE K); "reboot"; "edl"] = Exits 0 out2 err2 ->
  exists st',
    reboot_to_edl env K false st = (Ok tt, st') /\
    spawned (trace st') =
      [str (Device.ADB_EXE K); "reboot"; "edl"]
      :: [str (Device.ADB_EXE K); "wait-for-device"] :: spawned (trace st).
Proof.
  intros H1 H2.
  destruct (wait_for_adb_found env K st out1 err1 H1) as (s1 & Hw & Hn & _ & Hsp).
  unfold reboot_to_edl, bind. rewrite Hw.
  unfold try_, bind, say, emit. cbn -[run_command].
  rewrite (run_command_uncaptured env _ true _ 0 out2 err2)
    by (counters; rewrite ?Hn; auto).
  cbn. eexists. split; [reflexivity|].
  unfold record. cbn [trace spawned]. now rewrite Hsp.
Qed.

(** X24.  When no device is in EDL mode at entry, ADB is in use and its
    commands succeed, [setup_edl_connection] runs [adb wait-for-device]
    twice (once itself, once inside [reboot_to_edl]) and [adb reboot edl]
    exactly once, and starts nothing else. *)
Theorem setup_edl_connection_reboots_once :
  forall env K fuel st found out1 err1 out2 err2 out3 err3,
    detect_edl (comports_at env (n_comports st)) = Ok found ->
    truthy_opt found = false ->
    child_at env (n_spawn st) [str (Device.ADB_EXE K); "wait-for-device"]
      = Exits 0 out1 err1 ->
    child_at env (S (n_spawn st)) [str (Device.ADB_EXE K); "wait-for-device"]
      = Exits 0 out2 err2 ->
    child_at env (S (S (n_spawn st))) [str (Device.ADB_EXE K); "reboot"; "edl"]
      = Exits 0 out3 err3 ->
    spawned (trace (snd (setup_edl_connection env K false fuel st))) =
      [str (Device.ADB_EXE K); "reboot"; "edl"]
      :: [str (Device.ADB_EXE K); "wait-for-device"]
      :: [str (Device.ADB_EXE K); "wait-for-device"]
      :: spawned (trace st).
Proof.
  intros env K fuel st found out1 err1 out2 err2 out3 err3 Hdet Hfound H1 H2 H3.
  rewrite setup_edl_connection_run.
  destruct (wait_for_adb_found env K (record Comports st) out1 err1)
    as (s1 & Hw & Hn1 & _ & Hsp1); [now counters|].
  destruct (reboot_to_edl_found env K (record (Say Stdout "device_edl_setup_title") s1)
              out2 err2 out3 err3)
    as (s2 & Hr & Hsp2); [counters; now rewrite Hn1 .. |].
  assert (Hstage : edl_reboot_or_skip env K false st =
                   sleep env 10 (record (Say Stdout "device_wait_10s_edl") s2)).
  { unfold edl_reboot_or_skip, bind.
    rewrite (check_edl_device_silent_miss env st found Hdet), Hfound.
    cbn [negb when]. rewrite Hw. unfold say at 1, emit. rewrite Hr.
    reflexivity. }
  rewrite Hstage. clear Hstage.
  assert (Hsp : spawned (trace (record (Say Stdout "device_wait_10s_edl") s2)) =
                [str (Device.ADB_EXE K); "reboot"; "edl"]
                :: [str (Device.ADB_EXE K); "wait-for-device"]
                :: [str (Device.ADB_EXE K); "wait-for-device"]
                :: spawned (trace st)).
  { unfold record in *. cbn [trace spawned] in *. now rewrite Hsp2, Hsp1. }
  revert Hsp. generalize (record (Say Stdout "device_wait_10s_edl") s2). intros s Hsp.
  unfold sleep. destruct (sleep_at env (n_sleep s)); cbn; [exact Hsp|].
  destruct (mkdir_at env _ (str (IMAGE_DIR K))); cbn; exact Hsp.
Qed.

Lemma setup_edl_connection_reboots_once_witness :
  spawned (trace (snd (setup_edl_connection Samples.idle Samples.tools false 3 Samples.st0)))
  = [["adb.exe"; "reboot"; "edl"]; ["adb.exe"; "wait-for-device"];
     ["adb.exe"; "wait-for-device"]].
Proof.
  apply (setup_edl_connection_reboots_once Samples.idle Samples.tools 3 Samples.st0
           None "" "" "" "" "" ""); reflexivity.
Defined.
